(** * light/postprocess.go: the CHT and BloomTrie chain-indexer backends

    A shallow embedding of [src/light/postprocess.go] and the properties
    of its two [core.ChainIndexerBackend] implementations.

    Unsigned machine integers are [Z] with the wrap-around written out
    ([u64], [u16]); byte slices are [list Z] with one element per byte;
    the key/value store, the trie and the section-head array are stdpp
    finite maps and lists. *)

From Stdlib Require Import ZArith Lia.
From stdpp Require Import base option list gmap.

Open Scope Z_scope.

(** ** Machine integers and byte strings *)

Abbreviation bytes := (list Z).

Definition u64 (x : Z) : Z := x mod 2 ^ 64.
Definition u16 (x : Z) : Z := x mod 2 ^ 16.

(** Go's [byte(x)] conversion keeps the low eight bits. *)
Definition byte_of (x : Z) : Z := Z.land x 255.

(** [binary.BigEndian.PutUint64(b, v)]:
    b[0] = byte(v >> 56) ... b[7] = byte(v). *)
Definition PutUint64 (v : Z) : bytes :=
  [ byte_of (Z.shiftr v 56); byte_of (Z.shiftr v 48);
    byte_of (Z.shiftr v 40); byte_of (Z.shiftr v 32);
    byte_of (Z.shiftr v 24); byte_of (Z.shiftr v 16);
    byte_of (Z.shiftr v 8);  byte_of v ].

(** [binary.BigEndian.PutUint16(b, v)]: b[0] = byte(v >> 8), b[1] = byte(v). *)
Definition PutUint16 (v : Z) : bytes :=
  [ byte_of (Z.shiftr v 8); byte_of v ].

(** Reading a big-endian byte string back as a number; used to show that
    the encodings above lose nothing. *)
Definition beDecode (bs : bytes) : Z :=
  foldl (fun acc b => acc * 256 + b) 0 bs.

(** ASCII codes of the string literals of the source. *)
Definition chtPrefix : bytes := [99; 104; 116; 82; 111; 111; 116; 45].       (* "chtRoot-" *)
Definition ChtTablePrefix : bytes := [99; 104; 116; 45].                     (* "cht-" *)
Definition bloomTriePrefix : bytes := [98; 108; 116; 82; 111; 111; 116; 45]. (* "bltRoot-" *)
Definition BloomTrieTablePrefix : bytes := [98; 108; 116; 45].               (* "blt-" *)

(** ** Constants *)

Definition ChtFrequency : Z := 32768.
Definition ChtV1Frequency : Z := 4096.
Definition HelperTrieConfirmations : Z := 2048.
Definition HelperTrieProcessConfirmations : Z := 256.

Definition BloomTrieFrequency : Z := 32768.
Definition ethBloomBitsSection : Z := 4096.
Definition ethBloomBitsConfirmations : Z := 256.

(** Modelled from the spec: [types.BloomBitLength] is declared in package
    core/types, which is not part of the source at hand; the spec fixes the
    number of bloom bit positions at 2048. *)
Definition BloomBitLength : Z := 2048.

(** ** Hashes *)

(** [common.Hash] is [[32]byte]; a hash is the list of its bytes. *)
Abbreviation Hash := (list Z).

Definition HashLength : nat := 32%nat.

Definition zeroHash : Hash := replicate HashLength 0.

(** Modelled from the spec: [common.BytesToHash] lives in package common,
    which is not part of the source at hand.  It right-aligns the input in a
    zeroed 32-byte array, cropping a longer input from the left, so that a
    lookup that found no value yields the zero hash, the spec's
    "recognizable empty/zero result". *)
Definition BytesToHash (b : bytes) : Hash :=
  let b' := drop (length b - HashLength) b in
  replicate (HashLength - length b') 0 ++ b'.

(** ** Errors *)

Inductive error : Type :=
  | ErrNotFound        (* a key/value lookup that found nothing *)
  | ErrMissingNode     (* trie.New: the root node is not in the node table *)
  | ErrDecompress      (* bitutil.DecompressBytes rejected its input *)
  | ErrEncode          (* rlp.EncodeToBytes rejected its input *)
  | ErrBatchPut        (* a batch refused a Put *)
  | ErrBatchWrite      (* flushing a batch failed *)
  | ErrPut.            (* a direct Put failed *)

#[global] Instance error_eq_dec : EqDecision error.
Proof. solve_decision. Defined.

(** ** Outcomes of a method call

    A Go method of a backend mutates its receiver and either runs to its
    end, leaves early through [return err], or panics.  The receiver state
    reached is kept in all three cases. *)

Inductive outcome (S A : Type) : Type :=
  | Next (a : A) (s : S)        (* fell through / [return nil], with a value *)
  | Return (e : error) (s : S)  (* the method executed [return err], err != nil *)
  | Panic (s : S).              (* run-time panic *)

Arguments Next {S A} a s.
Arguments Return {S A} e s.
Arguments Panic {S A} s.

Definition obind {S A B} (m : outcome S A) (k : A -> S -> outcome S B) : outcome S B :=
  match m with
  | Next a s => k a s
  | Return e s => Return e s
  | Panic s => Panic s
  end.

Definition final_state {S A} (o : outcome S A) : S :=
  match o with Next _ s | Return _ s | Panic s => s end.

Definition returned_error {S A} (o : outcome S A) : option error :=
  match o with Return e _ => Some e | _ => None end.

Definition panicked {S A} (o : outcome S A) : bool :=
  match o with Panic _ => true | _ => false end.

(** ** The store

    [ethdb.Database] is an interface; what the backends need of it is
    modelled from the spec's collaborator contracts. *)

(** Modelled from the spec: the "trie abstraction supporting
    update(key, value), delete(key), commit() -> root, opened either empty or
    at a given prior root" of package trie, which is not part of the source
    at hand.  A trie is its key/value set. *)
Abbreviation Trie := (gmap bytes bytes).

Definition Trie_Update (t : Trie) (key value : bytes) : Trie := <[key := value]> t.
Definition Trie_Delete (t : Trie) (key : bytes) : Trie := delete key t.

(** Which of the three write entry points of the store fail.  The interface
    lets each of them return an error; a failing write leaves the store as it
    was. *)
Record Faults : Type := mkFaults {
  failPut : bool;         (* Database.Put returns an error *)
  failBatchPut : bool;    (* Batch.Put returns an error *)
  failBatchWrite : bool;  (* Batch.Write returns an error *)
}.

Definition noFaults : Faults := mkFaults false false false.

(** Modelled from the spec: "a key-value store with get/put/atomic batch
    write; a chain store exposing total-difficulty lookup by (hash, number)
    and per-section raw bloom-bit storage by (bit, section, sectionHead)".
    The root records, the trie node tables, the total difficulties and the
    bloom bits live under pairwise different key prefixes of one store and
    are kept as four components. *)
Record Database : Type := mkDatabase {
  db_data : gmap bytes bytes;            (* records written through Put *)
  db_nodes : gmap bytes (gmap bytes bytes);
    (* node tables: table prefix ++ root |-> the trie committed at that root *)
  db_td : gmap (bytes * Z) Z;            (* (hash, number) |-> total difficulty *)
  db_bloom : gmap (Z * Z * bytes) bytes; (* (bit, section, head) |-> raw bit-plane *)
  db_faults : Faults;
}.

(** [db.Get(key)] : ([]byte, error) *)
Definition Database_Get (db : Database) (key : bytes) : bytes * option error :=
  match db_data db !! key with
  | Some v => (v, None)
  | None => ([], Some ErrNotFound)
  end.

(** [db.Put(key, value)] : error *)
Definition Database_Put (db : Database) (key value : bytes) : Database * option error :=
  if failPut (db_faults db) then (db, Some ErrPut)
  else (mkDatabase (<[key := value]> (db_data db)) (db_nodes db) (db_td db)
                   (db_bloom db) (db_faults db), None).

(** [core.GetTd(db, hash, number)] : *big.Int, nil when nothing is recorded *)
Definition GetTd (db : Database) (hash : Hash) (number : Z) : option Z :=
  db_td db !! (hash, number).

(** [core.GetBloomBits(db, bit, section, head)] : ([]byte, error) *)
Definition GetBloomBits (db : Database) (bit section : Z) (head : Hash)
  : bytes * option error :=
  match db_bloom db !! (bit, section, head) with
  | Some v => (v, None)
  | None => ([], Some ErrNotFound)
  end.

(** A batch created by [cdb.NewBatch()], where [cdb] is the table of the
    store with the given prefix: the tries handed to it, not yet flushed. *)
Record Batch : Type := mkBatch {
  batch_table : bytes;
  batch_pending : list (Hash * Trie);
  batch_failPut : bool;
}.

Definition Table_NewBatch (db : Database) (table : bytes) : Batch :=
  mkBatch table [] (failBatchPut (db_faults db)).

(** [batch.Write()] : error *)
Definition Batch_Write (batch : Batch) (db : Database) : Database * option error :=
  if failBatchWrite (db_faults db) then (db, Some ErrBatchWrite)
  else (mkDatabase (db_data db)
          (foldl (fun nodes rt => <[batch_table batch ++ rt.1 := rt.2]> nodes)
                 (db_nodes db) (batch_pending batch))
          (db_td db) (db_bloom db) (db_faults db), None).

(** Headers: [header.Number] and the value of [header.Hash()]. *)
Record Header : Type := mkHeader {
  Number : Z;
  HeaderHash : Hash;
}.

(** [Uint64()] of a big integer: the low 64 bits of the absolute value. *)
Definition Uint64 (x : Z) : Z := u64 (Z.abs x).

(** ChtNode structures are stored in the Canonical Hash Trie in an RLP
    encoded format. *)
Record ChtNode : Type := mkChtNode {
  node_Hash : Hash;
  node_Td : Z;
}.

(** The chain indexer built by a constructor: the backend it drives, its
    section size and the number of confirmations it waits for. *)
Record ChainIndexer (B : Type) : Type := mkChainIndexer {
  ci_backend : B;
  ci_sectionSize : Z;
  ci_confirmReq : Z;
}.

Arguments mkChainIndexer {B} _ _ _.
Arguments ci_backend {B} _.
Arguments ci_sectionSize {B} _.
Arguments ci_confirmReq {B} _.

(** ChtIndexerBackend implements core.ChainIndexerBackend.  [c_db] is the
    store behind the handle [db]; [cdb] is the table of that store with the
    prefix [c_cdb]; a nil [trie] is [None]. *)
Record ChtIndexerBackend : Type := mkChtIndexerBackend {
  c_db : Database;
  c_cdb : bytes;
  c_section : Z;
  c_sectionSize : Z;
  c_lastHash : Hash;
  c_trie : option Trie;
}.

(** BloomTrieIndexerBackend implements core.ChainIndexerBackend. *)
Record BloomTrieIndexerBackend : Type := mkBloomTrieIndexerBackend {
  b_db : Database;
  b_cdb : bytes;
  b_section : Z;
  b_parentSectionSize : Z;
  b_bloomTrieRatio : Z;
  b_trie : option Trie;
  b_sectionHeads : list Hash;
}.

Section Backends.

(** The collaborators that are pure functions: the Merkle root of a
    key/value set, the RLP encoder, and the bitmap codec. *)
Variable trieHash : Trie -> Hash.
Variable EncodeToBytes : ChtNode -> bytes * option error.
Variable CompressBytes : bytes -> bytes.
Variable DecompressBytes : bytes -> Z -> bytes * option error.

Definition emptyRoot : Hash := trieHash ∅.

(** Modelled from the spec: [trie.New(root, cdb)] of package trie, "opened
    either empty or at a given prior root", failing "if the underlying
    store is inconsistent (missing referenced nodes)". *)
Definition trie_New (root : Hash) (db : Database) (table : bytes)
  : option Trie * option error :=
  if bool_decide (root ≠ zeroHash) && bool_decide (root ≠ emptyRoot) then
    match db_nodes db !! (table ++ root) with
    | Some t => (Some t, None)
    | None => (None, Some ErrMissingNode)
    end
  else (Some ∅, None).

(** Modelled from the spec: [trie.CommitTo(batch)], "commit() -> root";
    the root is a function of the key/value set alone. *)
Definition Trie_CommitTo (t : Trie) (batch : Batch) : (Hash * option error) * Batch :=
  if batch_failPut batch then ((zeroHash, Some ErrBatchPut), batch)
  else ((trieHash t, None),
        mkBatch (batch_table batch) (batch_pending batch ++ [(trieHash t, t)])
                (batch_failPut batch)).

(** *** Canonical Hash Trie *)

(** GetChtRoot reads the CHT root associated to the given section from
    the database. *)
Definition GetChtRoot (db : Database) (sectionIdx : Z) (sectionHead : Hash) : Hash :=
  let encNumber := PutUint64 sectionIdx in
  let '(data, _) := Database_Get db ((chtPrefix ++ encNumber) ++ sectionHead) in
  BytesToHash data.

(** GetChtV2Root: the section index is given in LES/2 section size. *)
Definition GetChtV2Root (db : Database) (sectionIdx : Z) (sectionHead : Hash) : Hash :=
  GetChtRoot db
    (u64 (u64 (u64 (sectionIdx + 1) * (ChtFrequency / ChtV1Frequency)) - 1))
    sectionHead.

(** StoreChtRoot writes the CHT root associated to the given section into
    the database; the error of [db.Put] is not looked at. *)
Definition StoreChtRoot (db : Database) (sectionIdx : Z) (sectionHead root : Hash)
  : Database :=
  let encNumber := PutUint64 sectionIdx in
  let '(db', _) := Database_Put db ((chtPrefix ++ encNumber) ++ sectionHead) root in
  db'.

Definition NewChtIndexer (db : Database) (clientMode : bool)
  : ChainIndexer ChtIndexerBackend :=
  let cdb := ChtTablePrefix in
  let '(sectionSize, confirmReq) :=
    if clientMode then (ChtFrequency, HelperTrieConfirmations)
    else (ChtV1Frequency, HelperTrieProcessConfirmations) in
  mkChainIndexer (mkChtIndexerBackend db cdb 0 sectionSize zeroHash None)
                 sectionSize confirmReq.

Definition ChtIndexerBackend_Reset (c : ChtIndexerBackend) (section : Z)
    (lastSectionHead : Hash) : outcome ChtIndexerBackend unit :=
  let root :=
    if 0 <? section then GetChtRoot (c_db c) (u64 (section - 1)) lastSectionHead
    else zeroHash in
  let '(t, err) := trie_New root (c_db c) (c_cdb c) in
  let c' := mkChtIndexerBackend (c_db c) (c_cdb c) section (c_sectionSize c)
                                (c_lastHash c) t in
  match err with
  | Some e => Return e c'
  | None => Next tt c'
  end.

Definition ChtIndexerBackend_Process (c : ChtIndexerBackend) (header : Header)
  : outcome ChtIndexerBackend unit :=
  let hash := HeaderHash header in
  let num := Uint64 (Number header) in
  let c1 := mkChtIndexerBackend (c_db c) (c_cdb c) (c_section c) (c_sectionSize c)
                                hash (c_trie c) in
  match GetTd (c_db c1) hash num with
  | None => Panic c1
  | Some td =>
      let encNumber := PutUint64 num in
      let '(data, _) := EncodeToBytes (mkChtNode hash td) in
      match c_trie c1 with
      | None => Panic c1
      | Some t =>
          Next tt (mkChtIndexerBackend (c_db c1) (c_cdb c1) (c_section c1)
                     (c_sectionSize c1) (c_lastHash c1)
                     (Some (Trie_Update t encNumber data)))
      end
  end.

(** The log line of the source is left out. *)
Definition ChtIndexerBackend_Commit (c : ChtIndexerBackend)
  : outcome ChtIndexerBackend unit :=
  let batch := Table_NewBatch (c_db c) (c_cdb c) in
  match c_trie c with
  | None => Panic c
  | Some t =>
      let '((root, err), batch) := Trie_CommitTo t batch in
      match err with
      | Some e => Return e c
      | None =>
          let '(db1, _) := Batch_Write batch (c_db c) in
          let db2 := StoreChtRoot db1 (c_section c) (c_lastHash c) root in
          Next tt (mkChtIndexerBackend db2 (c_cdb c) (c_section c) (c_sectionSize c)
                     (c_lastHash c) (c_trie c))
      end
  end.

(** *** Bloom Trie *)

(** GetBloomTrieRoot reads the BloomTrie root associated to the given
    section from the database. *)
Definition GetBloomTrieRoot (db : Database) (sectionIdx : Z) (sectionHead : Hash)
  : Hash :=
  let encNumber := PutUint64 sectionIdx in
  let '(data, _) := Database_Get db ((bloomTriePrefix ++ encNumber) ++ sectionHead) in
  BytesToHash data.

(** StoreBloomTrieRoot writes the BloomTrie root associated to the given
    section into the database. *)
Definition StoreBloomTrieRoot (db : Database) (sectionIdx : Z)
    (sectionHead root : Hash) : Database :=
  let encNumber := PutUint64 sectionIdx in
  let '(db', _) :=
    Database_Put db ((bloomTriePrefix ++ encNumber) ++ sectionHead) root in
  db'.

Definition NewBloomTrieIndexer (db : Database) (clientMode : bool)
  : ChainIndexer BloomTrieIndexerBackend :=
  let cdb := BloomTrieTablePrefix in
  let '(parentSectionSize, confirmReq) :=
    if clientMode then (BloomTrieFrequency, HelperTrieConfirmations)
    else (ethBloomBitsSection, HelperTrieProcessConfirmations) in
  let bloomTrieRatio := BloomTrieFrequency / parentSectionSize in
  mkChainIndexer
    (mkBloomTrieIndexerBackend db cdb 0 parentSectionSize bloomTrieRatio None
       (replicate (Z.to_nat bloomTrieRatio) zeroHash))
    BloomTrieFrequency (u64 (confirmReq - ethBloomBitsConfirmations)).

Definition BloomTrieIndexerBackend_Reset (b : BloomTrieIndexerBackend) (section : Z)
    (lastSectionHead : Hash) : outcome BloomTrieIndexerBackend unit :=
  let root :=
    if 0 <? section then GetBloomTrieRoot (b_db b) (u64 (section - 1)) lastSectionHead
    else zeroHash in
  let '(t, err) := trie_New root (b_db b) (b_cdb b) in
  let b' := mkBloomTrieIndexerBackend (b_db b) (b_cdb b) section
              (b_parentSectionSize b) (b_bloomTrieRatio b) t (b_sectionHeads b) in
  match err with
  | Some e => Return e b'
  | None => Next tt b'
  end.

(** Integer division by zero and an index outside the slice panic. *)
Definition BloomTrieIndexerBackend_Process (b : BloomTrieIndexerBackend)
    (header : Header) : outcome BloomTrieIndexerBackend unit :=
  let num := u64 (Uint64 (Number header) - u64 (b_section b * BloomTrieFrequency)) in
  if b_parentSectionSize b =? 0 then Panic b
  else if u64 (num + 1) mod b_parentSectionSize b =? 0 then
    let slot := Z.to_nat (num / b_parentSectionSize b) in
    if bool_decide (slot < length (b_sectionHeads b))%nat then
      Next tt (mkBloomTrieIndexerBackend (b_db b) (b_cdb b) (b_section b)
                 (b_parentSectionSize b) (b_bloomTrieRatio b) (b_trie b)
                 (<[slot := HeaderHash header]> (b_sectionHeads b)))
    else Panic b
  else Next tt b.

(** The inner loop of Commit, [for j := uint64(0); j < b.bloomTrieRatio; j++],
    with [n] iterations left: the raw bit-plane of each parent sub-section
    is fetched, decompressed and appended to [decomp]. *)
Fixpoint Commit_parentLoop (b : BloomTrieIndexerBackend) (i : Z) (n : nat) (j : Z)
    (decomp : bytes) : outcome BloomTrieIndexerBackend bytes :=
  match n with
  | O => Next decomp b
  | S n' =>
      match b_sectionHeads b !! Z.to_nat j with
      | None => Panic b
      | Some head =>
          let '(data, err) :=
            GetBloomBits (b_db b) i
              (u64 (u64 (b_section b * b_bloomTrieRatio b) + j)) head in
          match err with
          | Some e => Return e b
          | None =>
              let '(decompData, err2) :=
                DecompressBytes data (b_parentSectionSize b / 8) in
              match err2 with
              | Some e => Return e b
              | None => Commit_parentLoop b i n' (j + 1) (decomp ++ decompData)
              end
          end
      end
  end.

(** The outer loop of Commit, [for i := uint(0); i < types.BloomBitLength; i++],
    with [n] iterations left.  The byte counters of the source feed its log
    line only and are left out. *)
Fixpoint Commit_bitLoop (n : nat) (i : Z) (b : BloomTrieIndexerBackend)
  : outcome BloomTrieIndexerBackend unit :=
  match n with
  | O => Next tt b
  | S n' =>
      let encKey := PutUint16 (u16 i) ++ PutUint64 (b_section b) in
      obind (Commit_parentLoop b i (Z.to_nat (b_bloomTrieRatio b)) 0 [])
        (fun decomp b =>
           let comp := CompressBytes decomp in
           match b_trie b with
           | None => Panic b
           | Some t =>
               let t' :=
                 if bool_decide (0 < length comp)%nat then Trie_Update t encKey comp
                 else Trie_Delete t encKey in
               Commit_bitLoop n' (i + 1)
                 (mkBloomTrieIndexerBackend (b_db b) (b_cdb b) (b_section b)
                    (b_parentSectionSize b) (b_bloomTrieRatio b) (Some t')
                    (b_sectionHeads b))
           end)
  end.

Definition BloomTrieIndexerBackend_Commit (b : BloomTrieIndexerBackend)
  : outcome BloomTrieIndexerBackend unit :=
  obind (Commit_bitLoop (Z.to_nat BloomBitLength) 0 b)
    (fun _ b =>
       let batch := Table_NewBatch (b_db b) (b_cdb b) in
       match b_trie b with
       | None => Panic b
       | Some t =>
           let '((root, err), batch) := Trie_CommitTo t batch in
           match err with
           | Some e => Return e b
           | None =>
               let '(db1, _) := Batch_Write batch (b_db b) in
               let b1 := mkBloomTrieIndexerBackend db1 (b_cdb b) (b_section b)
                           (b_parentSectionSize b) (b_bloomTrieRatio b) (b_trie b)
                           (b_sectionHeads b) in
               match b_sectionHeads b1 !! Z.to_nat (u64 (b_bloomTrieRatio b1 - 1)) with
               | None => Panic b1
               | Some sectionHead =>
                   Next tt (mkBloomTrieIndexerBackend
                              (StoreBloomTrieRoot db1 (b_section b1) sectionHead root)
                              (b_cdb b1) (b_section b1) (b_parentSectionSize b1)
                              (b_bloomTrieRatio b1) (b_trie b1) (b_sectionHeads b1))
               end
           end
       end).

(** *** The scheduler's cycle *)

(** Modelled from the spec: the chain indexer of package core, which is not
    part of the source at hand, "for each newly confirmed section, calls
    Reset(section, priorSectionHead), then Process(header) once per header
    in increasing block-number order within the section, then Commit()"; an
    error or a panic ends the cycle. *)
Fixpoint ChtIndexerBackend_ProcessAll (c : ChtIndexerBackend) (headers : list Header)
  : outcome ChtIndexerBackend unit :=
  match headers with
  | [] => Next tt c
  | header :: rest =>
      obind (ChtIndexerBackend_Process c header)
        (fun _ c => ChtIndexerBackend_ProcessAll c rest)
  end.

Definition ChtIndexerBackend_Cycle (c : ChtIndexerBackend) (section : Z)
    (lastSectionHead : Hash) (headers : list Header)
  : outcome ChtIndexerBackend unit :=
  obind (ChtIndexerBackend_Reset c section lastSectionHead)
    (fun _ c =>
       obind (ChtIndexerBackend_ProcessAll c headers)
         (fun _ c => ChtIndexerBackend_Commit c)).

Fixpoint BloomTrieIndexerBackend_ProcessAll (b : BloomTrieIndexerBackend)
    (headers : list Header) : outcome BloomTrieIndexerBackend unit :=
  match headers with
  | [] => Next tt b
  | header :: rest =>
      obind (BloomTrieIndexerBackend_Process b header)
        (fun _ b => BloomTrieIndexerBackend_ProcessAll b rest)
  end.

(** *** What a cycle computes

    Closed forms of the trie and of the store a CHT cycle ends with; the
    theorems below relate the methods to them. *)

(** The leaf Process writes for a header whose total difficulty is
    recorded: big-endian block number |-> RLP of ChtNode{hash, td}. *)
Definition cht_leaf (db : Database) (header : Header) : bytes * bytes :=
  let hash := HeaderHash header in
  let num := Uint64 (Number header) in
  (PutUint64 num,
   (EncodeToBytes (mkChtNode hash (default 0 (GetTd db hash num)))).1).

Definition insert_all (t : Trie) (leaves : list (bytes * bytes)) : Trie :=
  foldl (fun t kv => Trie_Update t kv.1 kv.2) t leaves.

Definition last_hash (h0 : Hash) (headers : list Header) : Hash :=
  foldl (fun _ header => HeaderHash header) h0 headers.

(** The store after a Commit of the trie [t] that got past CommitTo. *)
Definition committed_db (c : ChtIndexerBackend) (t : Trie) : Database :=
  StoreChtRoot
    (Batch_Write (mkBatch (c_cdb c) [(trieHash t, t)] false) (c_db c)).1
    (c_section c) (c_lastHash c) (trieHash t).

(** *** What a bloom-trie Commit computes *)

(** [bloomBitKey(bit, section) = beU16(bit) ++ beU64(section)], the trie
    key of the spec's key schema. *)
Definition bloomBitKey (bit section : Z) : bytes :=
  PutUint16 bit ++ PutUint64 section.

(** The error, if any, of fetching and decompressing the raw bit-plane of
    bit [i] for parent sub-section [j]. *)
Definition chunk_error (b : BloomTrieIndexerBackend) (i j : Z) : option error :=
  let fetched :=
    GetBloomBits (b_db b) i (u64 (b_section b * b_bloomTrieRatio b + j))
                 (b_sectionHeads b !!! Z.to_nat j) in
  match fetched.2 with
  | Some e => Some e
  | None => (DecompressBytes fetched.1 (b_parentSectionSize b / 8)).2
  end.

(** Slot [j] holds a head, and that parent bit-plane can be fetched and
    decompressed. *)
Definition chunk_available (b : BloomTrieIndexerBackend) (i j : Z) : bool :=
  bool_decide (is_Some (b_sectionHeads b !! Z.to_nat j))
  && bool_decide (chunk_error b i j = None).

(** Every slot 0..bloomTrieRatio-1 of sectionHeads exists. *)
Definition heads_recorded (b : BloomTrieIndexerBackend) : bool :=
  forallb (fun j => bool_decide (is_Some (b_sectionHeads b !! Z.to_nat j)))
          (seqZ 0 (b_bloomTrieRatio b)).

Definition planes_available (b : BloomTrieIndexerBackend) : bool :=
  forallb (fun i => forallb (chunk_available b i) (seqZ 0 (b_bloomTrieRatio b)))
          (seqZ 0 BloomBitLength).

(** Following the spec's words: the bit-plane of bit [i] for the section of
    [b] is "the exact concatenation, in increasing parent-sub-section
    order", of the decompressed raw bit-planes
    DecompressBytes(GetBloomBits(i, S*ratio+j, sectionHeads[j]), parentSectionSize/8). *)
Definition bitPlane (b : BloomTrieIndexerBackend) (i : Z) : bytes :=
  concat
    (map (fun j =>
            (DecompressBytes
               (GetBloomBits (b_db b) i (u64 (b_section b * b_bloomTrieRatio b + j))
                             (b_sectionHeads b !!! Z.to_nat j)).1
               (b_parentSectionSize b / 8)).1)
         (seqZ 0 (b_bloomTrieRatio b))).

(** Following the spec's words: "if the compressed result is non-empty,
    upsert it into the trie under bloomBitKey(bit, section); if empty,
    delete any existing entry for that key". *)
Definition commit_bit (b : BloomTrieIndexerBackend) (t : Trie) (i : Z) : Trie :=
  let comp := CompressBytes (bitPlane b i) in
  match comp with
  | [] => delete (bloomBitKey i (b_section b)) t
  | _ :: _ => <[bloomBitKey i (b_section b) := comp]> t
  end.

Definition committed_planes (b : BloomTrieIndexerBackend) (t : Trie) : Trie :=
  foldl (commit_bit b) t (seqZ 0 BloomBitLength).

(** The states a bloom-trie backend can be in: built by the constructor
    and then driven through its three methods. *)
Inductive BloomReachable : BloomTrieIndexerBackend -> Prop :=
  | reach_new db clientMode :
      BloomReachable (ci_backend (NewBloomTrieIndexer db clientMode))
  | reach_Reset b section lastSectionHead :
      BloomReachable b ->
      BloomReachable
        (final_state (BloomTrieIndexerBackend_Reset b section lastSectionHead))
  | reach_Process b header :
      BloomReachable b ->
      BloomReachable (final_state (BloomTrieIndexerBackend_Process b header))
  | reach_Commit b :
      BloomReachable b ->
      BloomReachable (final_state (BloomTrieIndexerBackend_Commit b)).

End Backends.

(** ** Sample collaborators and states

    Small concrete instances of the collaborators, on which the model can be
    run. *)

(** A stand-in for the Merkle root: 32 bytes that depend on the trie. *)
Definition sample_trieHash (t : Trie) : Hash :=
  replicate 31 0 ++ [Z.of_nat (size t) + 1].

Definition sample_EncodeToBytes (n : ChtNode) : bytes * option error :=
  (192 :: node_Hash n ++ [node_Td n], None).

(** A stand-in for the codec: an all-zero bitmap compresses to nothing,
    anything else is kept; decompression pads with zeros up to the target
    length and rejects what is longer. *)
Definition sample_CompressBytes (data : bytes) : bytes :=
  if forallb (Z.eqb 0) data then [] else data.

Definition sample_DecompressBytes (data : bytes) (target : Z) : bytes * option error :=
  if bool_decide (Z.of_nat (length data) <= target)
  then (data ++ replicate (Z.to_nat target - length data) 0, None)
  else ([], Some ErrDecompress).

Definition sample_hash : Hash := replicate 32 7.

(** A store that records one total difficulty. *)
Definition sample_db : Database :=
  mkDatabase ∅ ∅ {[ (sample_hash, 5) := 77 ]} ∅ noFaults.

(** A store that holds, for section 0 with head [sample_hash], one raw
    bit-plane per bloom bit. *)
Definition sample_bloom_db : Database :=
  mkDatabase ∅ ∅ ∅
    (list_to_map
       (map (fun i => ((i, 0, sample_hash), [i mod 3])) (seqZ 0 BloomBitLength)))
    noFaults.

(** A store whose Put and Batch.Write fail. *)
Definition sample_db_failing : Database :=
  mkDatabase ∅ ∅ ∅ ∅ (mkFaults true false true).

Definition sample_header : Header := mkHeader 5 sample_hash.

Definition sample_cht : ChtIndexerBackend :=
  mkChtIndexerBackend sample_db ChtTablePrefix 0 ChtV1Frequency zeroHash (Some ∅).

Definition sample_cht_failing : ChtIndexerBackend :=
  mkChtIndexerBackend sample_db_failing ChtTablePrefix 0 ChtV1Frequency sample_hash
                      (Some ∅).

(** A client-mode bloom-trie backend after Reset(0, _) and the last header
    of section 0. *)
Definition sample_bloom : BloomTrieIndexerBackend :=
  mkBloomTrieIndexerBackend sample_bloom_db BloomTrieTablePrefix 0 BloomTrieFrequency 1
                            (Some ∅) [sample_hash].

(** A server-mode backend whose store holds no bloom bits for its parent
    sub-sections. *)
Definition sample_bloom_missing : BloomTrieIndexerBackend :=
  mkBloomTrieIndexerBackend sample_db BloomTrieTablePrefix 1 ethBloomBitsSection 8
                            (Some ∅) (replicate 8 sample_hash).

(** A store whose root records for section 0 and head [sample_hash] name a
    root that is in no node table. *)
Definition sample_db_dangling : Database :=
  mkDatabase
    (<[(chtPrefix ++ PutUint64 0) ++ sample_hash := sample_hash]>
       {[ (bloomTriePrefix ++ PutUint64 0) ++ sample_hash := sample_hash ]})
    ∅ ∅ ∅ noFaults.

(** A store that records two total difficulties. *)
Definition sample_db_two : Database :=
  mkDatabase ∅ ∅ (<[(sample_hash, 5) := 77]> {[ (zeroHash, 6) := 78 ]}) ∅ noFaults.

(** A store whose batches refuse their Put. *)
Definition sample_db_batch_failing : Database :=
  mkDatabase ∅ ∅ ∅ ∅ (mkFaults false true false).

Definition sample_header_six : Header := mkHeader 6 zeroHash.

(** A CHT backend holding a one-leaf trie. *)
Definition sample_cht_leaf : ChtIndexerBackend :=
  mkChtIndexerBackend sample_db ChtTablePrefix 0 ChtV1Frequency sample_hash
                      (Some {[ PutUint64 5 := [1] ]}).

(** A store that holds, for the parent sections 6 and 7 under two different
    heads, one raw bit-plane per bloom bit. *)
Definition sample_bloom_two_db : Database :=
  mkDatabase ∅ ∅ ∅
    (list_to_map
       (flat_map (fun i => [ ((i, 6, sample_hash), [i mod 3]);
                             ((i, 7, zeroHash), [2 * (i mod 3)]) ])
                 (seqZ 0 BloomBitLength)))
    noFaults.

(** A backend for section 3 that aggregates two parent sub-sections of 16
    headers each, with both heads recorded and an entry for bit 0 left in
    its trie. *)
Definition sample_bloom_two : BloomTrieIndexerBackend :=
  mkBloomTrieIndexerBackend sample_bloom_two_db BloomTrieTablePrefix 3 16 2
                            (Some {[ bloomBitKey 0 3 := [9] ]})
                            [sample_hash; zeroHash].

(** Stores on which only Put, or only Batch.Write, fails. *)
Definition sample_db_put_failing : Database :=
  mkDatabase ∅ ∅ ∅ ∅ (mkFaults true false false).

Definition sample_db_write_failing : Database :=
  mkDatabase ∅ ∅ ∅ ∅ (mkFaults false false true).

Definition sample_cht_put_failing : ChtIndexerBackend :=
  mkChtIndexerBackend sample_db_put_failing ChtTablePrefix 0 ChtV1Frequency sample_hash
                      (Some {[ PutUint64 5 := [1] ]}).

Definition sample_cht_write_failing : ChtIndexerBackend :=
  mkChtIndexerBackend sample_db_write_failing ChtTablePrefix 0 ChtV1Frequency
                      sample_hash (Some {[ PutUint64 5 := [1] ]}).

(** * Properties *)

(** ** Encodings *)

Lemma byte_of_mod x : byte_of x = x mod 256.
Proof. unfold byte_of. change 255 with (Z.ones 8). by rewrite Z.land_ones. Qed.

Lemma byte_of_range x : 0 <= byte_of x < 256.
Proof. rewrite byte_of_mod. apply Z.mod_pos_bound. lia. Qed.

Lemma length_PutUint64 v : length (PutUint64 v) = 8%nat.
Proof. reflexivity. Qed.

Lemma length_PutUint16 v : length (PutUint16 v) = 2%nat.
Proof. reflexivity. Qed.

(** Peeling one base-256 digit off a number. *)
Lemma digit_split x : x = 256 * (x / 256) + x mod 256 /\ 0 <= x mod 256 < 256.
Proof. split; [apply Z.div_mod; lia | apply Z.mod_pos_bound; lia]. Qed.

Lemma beDecode_PutUint64 v : beDecode (PutUint64 v) = u64 v.
Proof.
  unfold beDecode, PutUint64, u64. cbn [foldl].
  rewrite !byte_of_mod, !Z.shiftr_div_pow2 by lia.
  change (2 ^ 56) with (256 * 2 ^ 48). change (2 ^ 48) with (256 * 2 ^ 40).
  change (2 ^ 40) with (256 * 2 ^ 32). change (2 ^ 32) with (256 * 2 ^ 24).
  change (2 ^ 24) with (256 * 2 ^ 16). change (2 ^ 16) with (256 * 2 ^ 8).
  change (2 ^ 8) with 256.
  rewrite <- !Z.div_div by lia.
  set (d1 := v / 256). set (d2 := d1 / 256). set (d3 := d2 / 256).
  set (d4 := d3 / 256). set (d5 := d4 / 256). set (d6 := d5 / 256).
  set (d7 := d6 / 256).
  pose proof (digit_split v) as [E0 B0]. fold d1 in E0.
  pose proof (digit_split d1) as [E1 B1]. fold d2 in E1.
  pose proof (digit_split d2) as [E2 B2]. fold d3 in E2.
  pose proof (digit_split d3) as [E3 B3]. fold d4 in E3.
  pose proof (digit_split d4) as [E4 B4]. fold d5 in E4.
  pose proof (digit_split d5) as [E5 B5]. fold d6 in E5.
  pose proof (digit_split d6) as [E6 B6]. fold d7 in E6.
  pose proof (digit_split d7) as [E7 B7].
  apply Z.mod_unique with (q := d7 / 256); lia.
Qed.

Lemma beDecode_PutUint16 v : beDecode (PutUint16 v) = u16 v.
Proof.
  unfold beDecode, PutUint16, u16. cbn [foldl].
  rewrite !byte_of_mod, !Z.shiftr_div_pow2 by lia.
  change (2 ^ 8) with 256.
  pose proof (digit_split v) as [E0 B0].
  pose proof (digit_split (v / 256)) as [E1 B1].
  apply Z.mod_unique with (q := v / 256 / 256); lia.
Qed.

Lemma PutUint64_inj x y : PutUint64 x = PutUint64 y -> u64 x = u64 y.
Proof. intros H. by rewrite <- !beDecode_PutUint64, H. Qed.

Lemma PutUint16_inj x y : PutUint16 x = PutUint16 y -> u16 x = u16 y.
Proof. intros H. by rewrite <- !beDecode_PutUint16, H. Qed.

(** The encoding reads its argument modulo 2^64, as the uint64 parameter of
    the source does. *)
Lemma PutUint64_u64 v : PutUint64 (u64 v) = PutUint64 v.
Proof.
  unfold PutUint64, u64.
  assert (H : forall k, 0 <= k <= 56 ->
            byte_of (Z.shiftr (v mod 2 ^ 64) k) = byte_of (Z.shiftr v k)).
  { intros k Hk. unfold byte_of. apply Z.bits_inj'. intros n Hn.
    rewrite !Z.land_spec, !Z.shiftr_spec by lia.
    destruct (Z.testbit 255 n) eqn:Hb; [|by rewrite !andb_false_r].
    assert (n < 8).
    { destruct (Z.ltb_spec n 8); [done|].
      change 255 with (Z.ones 8) in Hb. rewrite Z.ones_spec_high in Hb by lia. done. }
    rewrite Z.mod_pow2_bits_low by lia. done. }
  pose proof (H 0 ltac:(lia)) as H0. rewrite !Z.shiftr_0_r in H0.
  rewrite H0. by rewrite !H by lia.
Qed.

Lemma u64_idemp x : u64 (u64 x) = u64 x.
Proof. unfold u64. apply Z.mod_mod. lia. Qed.

Lemma BytesToHash_nil : BytesToHash [] = zeroHash.
Proof. reflexivity. Qed.

Lemma BytesToHash_id (h : Hash) : length h = HashLength -> BytesToHash h = h.
Proof.
  intros Hlen. unfold BytesToHash. rewrite Hlen, Nat.sub_diag, drop_0, Hlen.
  by rewrite Nat.sub_diag.
Qed.

(** ** Root lookup *)

Lemma GetChtRoot_u64 db s h : GetChtRoot db (u64 s) h = GetChtRoot db s h.
Proof. unfold GetChtRoot. by rewrite PutUint64_u64. Qed.

Lemma v1_section_wrap v2 :
  u64 (u64 (u64 (v2 + 1) * (ChtFrequency / ChtV1Frequency)) - 1)
  = u64 ((v2 + 1) * (ChtFrequency / ChtV1Frequency) - 1).
Proof.
  unfold u64. rewrite Zminus_mod_idemp_l, <- Zminus_mod_idemp_l.
  by rewrite Zmult_mod_idemp_l, Zminus_mod_idemp_l.
Qed.

(** Below 2^61 the conversion does not wrap around. *)
Lemma v1_section_no_wrap v2 :
  0 <= v2 < 2 ^ 61 ->
  u64 (u64 (u64 (v2 + 1) * (ChtFrequency / ChtV1Frequency)) - 1) = (v2 + 1) * 8 - 1.
Proof.
  intros H. rewrite v1_section_wrap. unfold u64.
  change (ChtFrequency / ChtV1Frequency) with 8. apply Z.mod_small. lia.
Qed.

(** C3: GetChtV2Root(db, v2, h) is GetChtRoot(db, (v2+1)*(32768/4096) - 1, h),
    the root recorded for the v1 section that ends the v2 section; v2 section 0
    is read at v1 section 7.  The section index of GetChtRoot is a uint64, so
    its argument is read modulo 2^64, which is also how the source computes
    it. *)
Theorem GetChtV2Root_is_v1_lookup (db : Database) (v2 : Z) (h : Hash) :
  GetChtV2Root db v2 h = GetChtRoot db ((v2 + 1) * (32768 / 4096) - 1) h
  /\ GetChtV2Root db 0 h = GetChtRoot db 7 h.
Proof.
  assert (H : forall v, GetChtV2Root db v h
                        = GetChtRoot db ((v + 1) * (32768 / 4096) - 1) h).
  { intros v. unfold GetChtV2Root. rewrite v1_section_wrap.
    by rewrite GetChtRoot_u64. }
  split; [apply H|]. by rewrite H.
Qed.

(** C8: when no root record is stored for a section index and section head,
    GetChtRoot and GetBloomTrieRoot return the zero hash; both are total
    functions into hashes and have no error result. *)
Theorem root_lookup_absent_is_zero (db : Database) (s : Z) (h : Hash) :
  (db_data db !! ((chtPrefix ++ PutUint64 s) ++ h) = None ->
   GetChtRoot db s h = zeroHash)
  /\ (db_data db !! ((bloomTriePrefix ++ PutUint64 s) ++ h) = None ->
      GetBloomTrieRoot db s h = zeroHash).
Proof.
  split; intros Habs.
  - unfold GetChtRoot, Database_Get. by rewrite Habs.
  - unfold GetBloomTrieRoot, Database_Get. by rewrite Habs.
Qed.

(** ** The CHT backend *)

Section ChtProperties.

Variable trieHash : Trie -> Hash.
Variable EncodeToBytes : ChtNode -> bytes * option error.

(** C4: Process on a header whose total difficulty is not recorded panics;
    it neither returns an error nor touches the trie or the store. *)
Theorem ChtProcess_missing_td_panics (c : ChtIndexerBackend) (header : Header) :
  GetTd (c_db c) (HeaderHash header) (Uint64 (Number header)) = None ->
  exists c',
    ChtIndexerBackend_Process EncodeToBytes c header = Panic c'
    /\ c_trie c' = c_trie c
    /\ c_db c' = c_db c.
Proof.
  intros Htd. unfold ChtIndexerBackend_Process. cbn [c_db].
  rewrite Htd. eexists. split; [reflexivity|]. by split.
Qed.

Lemma ChtProcess_present (c : ChtIndexerBackend) (header : Header) (td : Z) (t : Trie) :
  GetTd (c_db c) (HeaderHash header) (Uint64 (Number header)) = Some td ->
  c_trie c = Some t ->
  ChtIndexerBackend_Process EncodeToBytes c header
  = Next tt (mkChtIndexerBackend (c_db c) (c_cdb c) (c_section c) (c_sectionSize c)
               (HeaderHash header)
               (Some (<[PutUint64 (Uint64 (Number header)) :=
                          (EncodeToBytes (mkChtNode (HeaderHash header) td)).1]> t))).
Proof.
  intros Htd Ht. unfold ChtIndexerBackend_Process. cbn [c_db c_trie].
  rewrite Htd, Ht. by destruct (EncodeToBytes _).
Qed.

Lemma ChtCommit_open (c : ChtIndexerBackend) (t : Trie) :
  c_trie c = Some t ->
  ChtIndexerBackend_Commit trieHash c
  = if failBatchPut (db_faults (c_db c)) then Return ErrBatchPut c
    else Next tt (mkChtIndexerBackend (committed_db trieHash c t) (c_cdb c) (c_section c)
                    (c_sectionSize c) (c_lastHash c) (Some t)).
Proof.
  intros Ht. unfold ChtIndexerBackend_Commit, committed_db, Trie_CommitTo, Table_NewBatch.
  rewrite Ht. cbn [batch_failPut batch_table batch_pending].
  destruct (failBatchPut _); [done|]. cbn [app].
  by destruct (Batch_Write _ _).
Qed.

Lemma StoreChtRoot_data (db : Database) (s : Z) (h root : Hash) :
  failPut (db_faults db) = false ->
  db_data (StoreChtRoot db s h root) !! ((chtPrefix ++ PutUint64 s) ++ h) = Some root.
Proof.
  intros Hf. unfold StoreChtRoot, Database_Put. rewrite Hf. cbn [db_data].
  apply lookup_insert_eq.
Qed.

Lemma Batch_Write_faults batch db : db_faults (Batch_Write batch db).1 = db_faults db.
Proof. unfold Batch_Write. by destruct (failBatchWrite _). Qed.

Lemma Batch_Write_data batch db : db_data (Batch_Write batch db).1 = db_data db.
Proof. unfold Batch_Write. by destruct (failBatchWrite _). Qed.

Lemma Batch_Write_td batch db : db_td (Batch_Write batch db).1 = db_td db.
Proof. unfold Batch_Write. by destruct (failBatchWrite _). Qed.

(** C5: when the total difficulty td of the header is recorded, Process
    puts the RLP encoding of ChtNode{hash, td} into the trie under the
    big-endian block number and makes the header's hash the last hash; the
    Commit that follows takes the root of that trie and, the store
    accepting its writes, records it under
    chtPrefix ++ beU64(section) ++ lastHash. *)
Theorem ChtProcess_inserts_and_Commit_records
    (c : ChtIndexerBackend) (header : Header) (td : Z) (t : Trie) :
  GetTd (c_db c) (HeaderHash header) (Uint64 (Number header)) = Some td ->
  c_trie c = Some t ->
  db_faults (c_db c) = noFaults ->
  let hash := HeaderHash header in
  let t' := <[PutUint64 (Uint64 (Number header)) :=
                (EncodeToBytes (mkChtNode hash td)).1]> t in
  exists c1 c2,
    ChtIndexerBackend_Process EncodeToBytes c header = Next tt c1
    /\ c_trie c1 = Some t'
    /\ c_lastHash c1 = hash
    /\ ChtIndexerBackend_Commit trieHash c1 = Next tt c2
    /\ db_data (c_db c2) !! ((chtPrefix ++ PutUint64 (c_section c)) ++ hash)
       = Some (trieHash t').
Proof.
  intros Htd Ht Hf hash t'.
  eexists _, _. split; [by apply ChtProcess_present|].
  split; [done|]. split; [done|].
  rewrite (ChtCommit_open _ t') by done. cbn [c_db].
  rewrite Hf. cbn [failBatchPut noFaults]. split; [reflexivity|].
  cbn [c_db]. unfold committed_db. cbn [c_db c_section c_lastHash c_cdb].
  apply StoreChtRoot_data. by rewrite Batch_Write_faults, Hf.
Qed.

(** *** Running a cycle twice *)

Lemma insert_all_union (t : Trie) (leaves : list (bytes * bytes)) :
  insert_all t leaves = list_to_map (reverse leaves) ∪ t.
Proof.
  unfold insert_all. revert t.
  induction leaves as [|[k v] l IH]; intros t; cbn [foldl].
  - rewrite reverse_nil, list_to_map_nil. by rewrite (left_id_L ∅ (∪)).
  - rewrite IH, reverse_cons, list_to_map_app. cbn [list_to_map foldr].
    unfold Trie_Update. cbn [fst snd].
    rewrite <- (assoc_L (∪)). f_equal.
    by rewrite <- insert_union_l, (left_id_L ∅ (∪)).
Qed.

Lemma insert_all_idemp (t : Trie) (leaves : list (bytes * bytes)) :
  insert_all (insert_all t leaves) leaves = insert_all t leaves.
Proof.
  rewrite !insert_all_union, (assoc_L (∪)). by rewrite (idemp_L (∪)).
Qed.

Lemma last_hash_idemp (h0 : Hash) (headers : list Header) :
  last_hash (last_hash h0 headers) headers = last_hash h0 headers.
Proof.
  unfold last_hash. destruct headers as [|h hs] using rev_ind; [done|].
  by rewrite !foldl_app.
Qed.

Lemma ChtProcessAll_present (c : ChtIndexerBackend) (headers : list Header) (t : Trie) :
  Forall (fun h => is_Some (GetTd (c_db c) (HeaderHash h) (Uint64 (Number h))))
         headers ->
  c_trie c = Some t ->
  ChtIndexerBackend_ProcessAll EncodeToBytes c headers
  = Next tt (mkChtIndexerBackend (c_db c) (c_cdb c) (c_section c) (c_sectionSize c)
               (last_hash (c_lastHash c) headers)
               (Some (insert_all t (cht_leaf EncodeToBytes (c_db c) <$> headers)))).
Proof.
  revert c t. induction headers as [|h hs IH]; intros c t Htd Ht.
  - cbn. rewrite <- Ht. by destruct c.
  - apply Forall_cons in Htd as [[td Hh] Htd].
    cbn [ChtIndexerBackend_ProcessAll].
    rewrite (ChtProcess_present c h td t Hh Ht). cbn [obind].
    erewrite IH; [|exact Htd|reflexivity]. cbn [c_db c_cdb c_section c_sectionSize c_lastHash].
    unfold last_hash, insert_all, cht_leaf. cbn [fmap list_fmap foldl fst snd].
    rewrite Hh. done.
Qed.

Lemma ChtReset_open (c : ChtIndexerBackend) (s : Z) (p : Hash) :
  returned_error (ChtIndexerBackend_Reset trieHash c s p) = None ->
  exists t,
    trie_New trieHash
      (if 0 <? s then GetChtRoot (c_db c) (u64 (s - 1)) p else zeroHash)
      (c_db c) (c_cdb c) = (Some t, None)
    /\ ChtIndexerBackend_Reset trieHash c s p
       = Next tt (mkChtIndexerBackend (c_db c) (c_cdb c) s (c_sectionSize c)
                    (c_lastHash c) (Some t)).
Proof.
  unfold ChtIndexerBackend_Reset, trie_New.
  destruct (_ && _).
  - destruct (db_nodes _ !! _); [|done]. intros _. by eexists.
  - intros _. by eexists.
Qed.

Lemma cht_key_ne (s : Z) (p h : Hash) :
  (chtPrefix ++ PutUint64 (u64 (s - 1))) ++ p ≠ (chtPrefix ++ PutUint64 s) ++ h.
Proof.
  intros Heq. rewrite <- !(assoc_L (++)) in Heq. apply app_inv_head in Heq.
  apply (f_equal (take 8)) in Heq.
  rewrite !take_app_length' in Heq by reflexivity.
  apply PutUint64_inj in Heq. rewrite u64_idemp in Heq. unfold u64 in Heq.
  assert (H : (s - (s - 1)) mod 2 ^ 64 = 0).
  { rewrite Zminus_mod, Heq, Z.sub_diag. done. }
  replace (s - (s - 1)) with 1 in H by lia. done.
Qed.

Lemma GetChtRoot_committed (c : ChtIndexerBackend) (t : Trie) (s : Z) (p : Hash) :
  c_section c = s ->
  GetChtRoot (committed_db trieHash c t) (u64 (s - 1)) p
  = GetChtRoot (c_db c) (u64 (s - 1)) p.
Proof.
  intros <-. unfold GetChtRoot, Database_Get, committed_db, StoreChtRoot, Database_Put.
  rewrite Batch_Write_faults. destruct (failPut _).
  - by rewrite Batch_Write_data.
  - cbn [db_data]. rewrite lookup_insert_ne by (apply not_eq_sym, cht_key_ne).
    by rewrite Batch_Write_data.
Qed.

Lemma committed_db_td c t : db_td (committed_db trieHash c t) = db_td (c_db c).
Proof.
  unfold committed_db, StoreChtRoot, Database_Put.
  destruct (failPut _); cbn [db_td]; apply Batch_Write_td.
Qed.

Lemma committed_db_faults c t : db_faults (committed_db trieHash c t) = db_faults (c_db c).
Proof.
  unfold committed_db, StoreChtRoot, Database_Put.
  destruct (failPut _) eqn:E; cbn [db_faults]; apply Batch_Write_faults.
Qed.

Lemma cht_leaf_committed c t h :
  cht_leaf EncodeToBytes (committed_db trieHash c t) h = cht_leaf EncodeToBytes (c_db c) h.
Proof. unfold cht_leaf, GetTd. by rewrite committed_db_td. Qed.

(** Committing the same trie under the same section and last hash again
    leaves the store as it is. *)
Lemma committed_db_idemp c t :
  committed_db trieHash
    (mkChtIndexerBackend (committed_db trieHash c t) (c_cdb c) (c_section c)
       (c_sectionSize c) (c_lastHash c) (Some t)) t
  = committed_db trieHash c t.
Proof.
  unfold committed_db at 1. cbn [c_db c_cdb c_section c_lastHash].
  unfold committed_db, StoreChtRoot, Database_Put, Batch_Write.
  destruct (c_db c) as [data nodes td bloom [fp fbp fbw]].
  cbn [db_faults db_data db_nodes db_td db_bloom failPut failBatchWrite
       batch_pending batch_table foldl fst snd].
  destruct fbw, fp;
    cbn [db_faults db_data db_nodes db_td db_bloom failPut failBatchWrite fst snd];
    rewrite ?insert_insert_eq; reflexivity.
Qed.

(** The trie the second Reset opens is the one the first Reset opened or
    the one the first Commit stored. *)
Lemma trie_New_committed c t root t0 :
  trie_New trieHash root (c_db c) (c_cdb c) = (Some t0, None) ->
  trie_New trieHash root (committed_db trieHash c t) (c_cdb c) = (Some t0, None)
  \/ trie_New trieHash root (committed_db trieHash c t) (c_cdb c) = (Some t, None).
Proof.
  unfold trie_New. destruct (_ && _); [|by left].
  unfold committed_db, StoreChtRoot, Database_Put, Batch_Write.
  destruct (failBatchWrite _), (failPut _);
    cbn [db_nodes fst batch_pending batch_table foldl snd]; try by left.
  all: destruct (decide (c_cdb c ++ trieHash t = c_cdb c ++ root)) as [->|Hne];
    [rewrite lookup_insert_eq; by right | rewrite lookup_insert_ne by done; by left].
Qed.

(** C7: a CHT cycle Reset(s, prevHead), Process on each header, Commit,
    run twice on the same section, previous head and headers, all of whose
    total difficulties are recorded, commits the same trie both times, hence
    the same root; the second Commit leaves the store, and so the root
    record it overwrites, exactly as the first one left it. *)
Theorem ChtCycle_twice_same_root
    (c : ChtIndexerBackend) (s : Z) (p : Hash) (headers : list Header) :
  Forall (fun h => is_Some (GetTd (c_db c) (HeaderHash h) (Uint64 (Number h))))
         headers ->
  returned_error (ChtIndexerBackend_Reset trieHash c s p) = None ->
  db_faults (c_db c) = noFaults ->
  exists c1 c2 t,
    ChtIndexerBackend_Cycle trieHash EncodeToBytes c s p headers = Next tt c1
    /\ ChtIndexerBackend_Cycle trieHash EncodeToBytes c1 s p headers = Next tt c2
    /\ c_trie c1 = Some t
    /\ c_trie c2 = Some t
    /\ c_lastHash c2 = c_lastHash c1
    /\ db_data (c_db c1) !! ((chtPrefix ++ PutUint64 s) ++ c_lastHash c1)
       = Some (trieHash t)
    /\ c_db c2 = c_db c1.
Proof.
  intros Htd Hopen Hf.
  destruct (ChtReset_open c s p Hopen) as (t0 & Hnew & HR).
  set (L := last_hash (c_lastHash c) headers).
  set (leaves := cht_leaf EncodeToBytes (c_db c) <$> headers).
  set (t1 := insert_all t0 leaves).
  set (c' := mkChtIndexerBackend (c_db c) (c_cdb c) s (c_sectionSize c) L (Some t1)).
  set (c1 := mkChtIndexerBackend (committed_db trieHash c' t1) (c_cdb c) s
               (c_sectionSize c) L (Some t1)).
  assert (H1 : ChtIndexerBackend_Cycle trieHash EncodeToBytes c s p headers
               = Next tt c1).
  { unfold ChtIndexerBackend_Cycle. rewrite HR. cbn [obind].
    rewrite (ChtProcessAll_present _ headers t0) by done.
    cbn [obind c_db c_cdb c_section c_sectionSize c_lastHash].
    fold L leaves t1 c'. rewrite (ChtCommit_open c' t1) by done.
    cbn [c_db c']. by rewrite Hf. }
  assert (Hleaves : cht_leaf EncodeToBytes (committed_db trieHash c' t1) <$> headers
                    = leaves).
  { subst leaves. apply list_fmap_ext. intros _ h _. exact (cht_leaf_committed c' t1 h). }
  assert (H2 : ChtIndexerBackend_Cycle trieHash EncodeToBytes c1 s p headers
               = Next tt c1).
  { unfold ChtIndexerBackend_Cycle, ChtIndexerBackend_Reset.
    cbn [c_db c_cdb c_section c_sectionSize c_lastHash c1].
    assert (Hroot : (if 0 <? s
                     then GetChtRoot (committed_db trieHash c' t1) (u64 (s - 1)) p
                     else zeroHash)
                    = (if 0 <? s then GetChtRoot (c_db c) (u64 (s - 1)) p
                       else zeroHash)).
    { destruct (0 <? s); [|done]. by rewrite GetChtRoot_committed. }
    rewrite Hroot.
    assert (Hpost : forall tX, tX = t0 \/ tX = t1 ->
              obind (ChtIndexerBackend_ProcessAll EncodeToBytes
                       (mkChtIndexerBackend (committed_db trieHash c' t1) (c_cdb c) s
                          (c_sectionSize c) L (Some tX)) headers)
                    (fun _ c => ChtIndexerBackend_Commit trieHash c)
              = Next tt c1).
    { intros tX HX.
      rewrite (ChtProcessAll_present _ headers tX); [| |done].
      2:{ cbn [c_db]. unfold GetTd. rewrite committed_db_td. exact Htd. }
      cbn [obind c_db c_cdb c_section c_sectionSize c_lastHash].
      rewrite Hleaves. subst L. rewrite last_hash_idemp.
      fold (last_hash (c_lastHash c) headers).
      assert (HtX : insert_all tX leaves = t1).
      { destruct HX as [->| ->]; [done|]. apply insert_all_idemp. }
      rewrite HtX.
      erewrite ChtCommit_open by reflexivity.
      cbn [c_db c_cdb c_section c_sectionSize c_lastHash].
      rewrite committed_db_faults. cbn [c_db c']. rewrite Hf.
      cbn [failBatchPut noFaults]. unfold c1. do 2 f_equal.
      apply (committed_db_idemp c' t1). }
    destruct (trie_New_committed c' t1 _ t0 Hnew) as [HN|HN];
      cbn [c_cdb c'] in HN; rewrite HN; cbn [obind]; apply Hpost; auto. }
  exists c1, c1, t1. repeat split; try done.
  cbn [c_db c_lastHash c1]. unfold committed_db. cbn [c_db c_section c_lastHash c_cdb c'].
  apply StoreChtRoot_data. by rewrite Batch_Write_faults, Hf.
Qed.

End ChtProperties.

(** ** The bloom-trie backend *)

Lemma PutUint16_u16 v : PutUint16 (u16 v) = PutUint16 v.
Proof.
  unfold PutUint16, u16.
  assert (H : forall k, 0 <= k <= 8 ->
            byte_of (Z.shiftr (v mod 2 ^ 16) k) = byte_of (Z.shiftr v k)).
  { intros k Hk. unfold byte_of. apply Z.bits_inj'. intros n Hn.
    rewrite !Z.land_spec, !Z.shiftr_spec by lia.
    destruct (Z.testbit 255 n) eqn:Hb; [|by rewrite !andb_false_r].
    assert (n < 8).
    { destruct (Z.ltb_spec n 8); [done|].
      change 255 with (Z.ones 8) in Hb. rewrite Z.ones_spec_high in Hb by lia. done. }
    rewrite Z.mod_pow2_bits_low by lia. done. }
  pose proof (H 0 ltac:(lia)) as H0. rewrite !Z.shiftr_0_r in H0.
  rewrite H0. by rewrite !H by lia.
Qed.

Lemma seqZ_of_nat_S (m : Z) (n : nat) :
  seqZ m (Z.of_nat (S n)) = m :: seqZ (m + 1) (Z.of_nat n).
Proof.
  rewrite seqZ_cons by lia. f_equal. f_equal; lia.
Qed.

Lemma seqZ_to_nat (m n : Z) : seqZ m (Z.of_nat (Z.to_nat n)) = seqZ m n.
Proof. unfold seqZ. by rewrite Nat2Z.id. Qed.

Lemma seqZ_snoc (m : Z) (n : nat) :
  seqZ m (Z.of_nat (S n)) = seqZ m (Z.of_nat n) ++ [m + Z.of_nat n].
Proof.
  rewrite Nat2Z.inj_succ, <- Z.add_1_r, seqZ_app by lia.
  f_equal.
Qed.

Lemma bloomBitKey_inj (i k s : Z) :
  0 <= i < 2 ^ 16 -> 0 <= k < 2 ^ 16 ->
  bloomBitKey i s = bloomBitKey k s -> i = k.
Proof.
  intros Hi Hk Heq. unfold bloomBitKey in Heq.
  apply (f_equal (take 2)) in Heq.
  rewrite !take_app_length' in Heq by reflexivity.
  apply PutUint16_inj in Heq. unfold u16 in Heq.
  by rewrite !Z.mod_small in Heq by lia.
Qed.

Section BloomProperties.

Variable trieHash : Trie -> Hash.
Variable CompressBytes : bytes -> bytes.
Variable DecompressBytes : bytes -> Z -> bytes * option error.

#[local] Abbreviation chunkErr := (chunk_error DecompressBytes).
#[local] Abbreviation chunkOk := (chunk_available DecompressBytes).
#[local] Abbreviation planesOk := (planes_available DecompressBytes).
#[local] Abbreviation plane := (bitPlane DecompressBytes).
#[local] Abbreviation commitBit := (commit_bit CompressBytes DecompressBytes).
#[local] Abbreviation committedPlanes :=
  (committed_planes CompressBytes DecompressBytes).
#[local] Abbreviation parentLoop := (Commit_parentLoop DecompressBytes).
#[local] Abbreviation bitLoop := (Commit_bitLoop CompressBytes DecompressBytes).
#[local] Abbreviation BloomCommit :=
  (BloomTrieIndexerBackend_Commit trieHash CompressBytes DecompressBytes).

(** The backend [b] with its trie replaced; the bit loop changes nothing
    else. *)
#[local] Abbreviation with_trie b t :=
  (mkBloomTrieIndexerBackend (b_db b) (b_cdb b) (b_section b)
     (b_parentSectionSize b) (b_bloomTrieRatio b) t (b_sectionHeads b)).

(** One turn of the inner loop, by what the fetch and the decompression
    say. *)
Lemma Commit_parentLoop_step b i n j decomp :
  parentLoop b i (S n) j decomp
  = match b_sectionHeads b !! Z.to_nat j with
    | None => Panic b
    | Some _ =>
        match chunkErr b i j with
        | Some e => Return e b
        | None =>
            parentLoop b i n (j + 1)
              (decomp ++
               (DecompressBytes
                  (GetBloomBits (b_db b) i (u64 (b_section b * b_bloomTrieRatio b + j))
                     (b_sectionHeads b !!! Z.to_nat j)).1
                  (b_parentSectionSize b / 8)).1)
        end
    end.
Proof.
  cbn [Commit_parentLoop]. unfold chunk_error.
  destruct (b_sectionHeads b !! Z.to_nat j) as [head|] eqn:Hh; [|done].
  rewrite (list_lookup_total_correct _ _ _ Hh).
  replace (u64 (u64 (b_section b * b_bloomTrieRatio b) + j))
    with (u64 (b_section b * b_bloomTrieRatio b + j))
    by (unfold u64; by rewrite Zplus_mod_idemp_l).
  destruct (GetBloomBits _ _ _ _) as [data [e|]]; cbn [fst snd]; [done|].
  by destruct (DecompressBytes _ _) as [d [e|]].
Qed.

Lemma Commit_parentLoop_ok b i n j decomp :
  forallb (chunkOk b i) (seqZ j (Z.of_nat n)) = true ->
  parentLoop b i n j decomp
  = Next (decomp ++
          concat (map (fun j =>
                    (DecompressBytes
                       (GetBloomBits (b_db b) i
                          (u64 (b_section b * b_bloomTrieRatio b + j))
                          (b_sectionHeads b !!! Z.to_nat j)).1
                       (b_parentSectionSize b / 8)).1)
                 (seqZ j (Z.of_nat n)))) b.
Proof.
  revert j decomp. induction n as [|n IH]; intros j decomp Hav.
  - cbn. by rewrite app_nil_r.
  - rewrite seqZ_of_nat_S in Hav |- *. cbn [forallb] in Hav.
    apply andb_true_iff in Hav as [Hj Hrest].
    unfold chunk_available in Hj. apply andb_true_iff in Hj as [Hh He].
    apply bool_decide_eq_true in Hh as [head Hh]. apply bool_decide_eq_true in He.
    rewrite Commit_parentLoop_step, Hh, He, IH by done.
    cbn [map concat]. by rewrite (assoc_L (++)).
Qed.

(** A parent bit-plane that cannot be fetched or decompressed ends the
    inner loop with the error of the first such plane. *)
Lemma Commit_parentLoop_fail b i n j decomp :
  forallb (fun j => bool_decide (is_Some (b_sectionHeads b !! Z.to_nat j)))
          (seqZ j (Z.of_nat n)) = true ->
  forallb (chunkOk b i) (seqZ j (Z.of_nat n)) = false ->
  exists k e,
    j <= k < j + Z.of_nat n
    /\ chunkErr b i k = Some e
    /\ parentLoop b i n j decomp = Return e b.
Proof.
  revert j decomp. induction n as [|n IH]; intros j decomp Hheads Hav.
  - done.
  - rewrite seqZ_of_nat_S in Hheads, Hav. cbn [forallb] in Hheads, Hav.
    apply andb_true_iff in Hheads as [Hh Hheads].
    rewrite Commit_parentLoop_step.
    pose proof Hh as Hh'. apply bool_decide_eq_true in Hh' as [head Hh'].
    rewrite Hh'. unfold chunk_available in Hav at 1. rewrite Hh in Hav.
    cbn [andb] in Hav.
    destruct (chunkErr b i j) as [e|] eqn:He.
    + exists j, e. split; [lia|]. by split.
    + rewrite bool_decide_eq_true_2 in Hav by done. cbn [andb] in Hav.
      destruct (IH (j + 1) (decomp ++
               (DecompressBytes
                  (GetBloomBits (b_db b) i (u64 (b_section b * b_bloomTrieRatio b + j))
                     (b_sectionHeads b !!! Z.to_nat j)).1
                  (b_parentSectionSize b / 8)).1) Hheads Hav)
        as (k & e & Hk & Hke & Hloop).
      exists k, e. split; [lia|]. by split.
Qed.

Lemma length_pos_cons (l : bytes) :
  bool_decide (0 < length l)%nat = match l with [] => false | _ :: _ => true end.
Proof. destruct l; [done|]. apply bool_decide_eq_true_2. cbn. lia. Qed.

(** One turn of the outer loop, when the inner loop got all its planes. *)
Lemma Commit_bitLoop_step b t i n :
  b_trie b = Some t ->
  forallb (chunkOk b i) (seqZ 0 (b_bloomTrieRatio b)) = true ->
  bitLoop (S n) i b = bitLoop n (i + 1) (with_trie b (Some (commitBit b t i))).
Proof.
  intros Ht Hav. cbn [Commit_bitLoop].
  rewrite Commit_parentLoop_ok by (by rewrite seqZ_to_nat).
  cbn [obind]. rewrite Ht, seqZ_to_nat, app_nil_l.
  unfold commit_bit, bloomBitKey, Trie_Update, Trie_Delete.
  fold (plane b i). rewrite length_pos_cons, PutUint16_u16.
  by destruct (CompressBytes (plane b i)).
Qed.

Lemma Commit_bitLoop_ok b t n i :
  b_trie b = Some t ->
  forallb (fun i => forallb (chunkOk b i) (seqZ 0 (b_bloomTrieRatio b)))
          (seqZ i (Z.of_nat n)) = true ->
  bitLoop n i b
  = Next tt (with_trie b (Some (foldl (commitBit b) t (seqZ i (Z.of_nat n))))).
Proof.
  revert b t i. induction n as [|n IH]; intros b t i Ht Hav.
  - change (seqZ i (Z.of_nat 0)) with (@nil Z). cbn [Commit_bitLoop foldl].
    rewrite <- Ht. by destruct b.
  - rewrite seqZ_of_nat_S in Hav |- *. cbn [forallb] in Hav.
    apply andb_true_iff in Hav as [Hi Hrest].
    rewrite (Commit_bitLoop_step b t) by done.
    erewrite IH; [reflexivity|reflexivity|exact Hrest].
Qed.

(** A bit whose plane cannot be gathered ends the outer loop with the error
    the inner loop returned; the store is as it was. *)
Lemma Commit_bitLoop_fail b t n i :
  b_trie b = Some t ->
  forallb (fun j => bool_decide (is_Some (b_sectionHeads b !! Z.to_nat j)))
          (seqZ 0 (b_bloomTrieRatio b)) = true ->
  forallb (fun i => forallb (chunkOk b i) (seqZ 0 (b_bloomTrieRatio b)))
          (seqZ i (Z.of_nat n)) = false ->
  exists k j e b',
    i <= k < i + Z.of_nat n
    /\ 0 <= j < b_bloomTrieRatio b
    /\ chunkErr b k j = Some e
    /\ bitLoop n i b = Return e b'
    /\ b_db b' = b_db b.
Proof.
  revert b t i. induction n as [|n IH]; intros b t i Ht Hheads Hav.
  - done.
  - rewrite seqZ_of_nat_S in Hav. cbn [forallb] in Hav.
    destruct (forallb (chunkOk b i) (seqZ 0 (b_bloomTrieRatio b))) eqn:Hi.
    + cbn [andb] in Hav. rewrite (Commit_bitLoop_step b t) by done.
      destruct (IH (with_trie b (Some (commitBit b t i))) _ (i + 1) eq_refl Hheads Hav)
        as (k & j & e & b' & Hk & Hj & He & Hloop & Hdb).
      cbn [b_bloomTrieRatio b_db] in Hj, Hdb.
      exists k, j, e, b'. repeat split; try done; lia.
    + rewrite <- seqZ_to_nat in Hheads, Hi.
      destruct (Commit_parentLoop_fail b i _ 0 [] Hheads Hi)
        as (j & e & Hj & He & Hloop).
      exists i, j, e, b. cbn [Commit_bitLoop].
      rewrite Hloop. cbn [obind]. repeat split; try done; lia.
Qed.

(** *** The trie the bit loop leaves *)

Lemma commit_bit_lookup_eq b t i :
  commitBit b t i !! bloomBitKey i (b_section b)
  = match CompressBytes (plane b i) with
    | [] => None
    | comp => Some comp
    end.
Proof.
  unfold commit_bit. destruct (CompressBytes (plane b i)).
  - apply lookup_delete_eq.
  - apply lookup_insert_eq.
Qed.

Lemma commit_bit_lookup_ne b t i key :
  key ≠ bloomBitKey i (b_section b) -> commitBit b t i !! key = t !! key.
Proof.
  intros Hne. unfold commit_bit. destruct (CompressBytes (plane b i)).
  - by apply lookup_delete_ne.
  - by apply lookup_insert_ne.
Qed.

Lemma commit_bit_no_new_empty b t i key :
  commitBit b t i !! key = Some [] -> t !! key = Some [].
Proof.
  destruct (decide (key = bloomBitKey i (b_section b))) as [->|Hne].
  - rewrite commit_bit_lookup_eq. by destruct (CompressBytes (plane b i)).
  - by rewrite commit_bit_lookup_ne.
Qed.

Lemma fold_commit_bit_lookup b t n i k :
  0 <= i -> i + Z.of_nat n <= 2 ^ 16 -> i <= k < i + Z.of_nat n ->
  foldl (commitBit b) t (seqZ i (Z.of_nat n)) !! bloomBitKey k (b_section b)
  = match CompressBytes (plane b k) with
    | [] => None
    | comp => Some comp
    end.
Proof.
  intros Hi. induction n as [|n IH]; intros Hn Hk; [lia|].
  rewrite seqZ_snoc, foldl_app. cbn [foldl].
  destruct (decide (k = i + Z.of_nat n)) as [->|Hne].
  - apply commit_bit_lookup_eq.
  - rewrite commit_bit_lookup_ne; [apply IH; lia|].
    intros Heq. apply bloomBitKey_inj in Heq; lia.
Qed.

Lemma fold_commit_bit_no_new_empty b t (bits : list Z) key :
  foldl (commitBit b) t bits !! key = Some [] -> t !! key = Some [].
Proof.
  revert t. induction bits as [|i bits IH]; intros t; [done|].
  cbn [foldl]. intros H. apply IH in H. by apply commit_bit_no_new_empty in H.
Qed.

(** *** Commit as a whole *)

Lemma planes_available_chunk b i j :
  planesOk b = true ->
  0 <= i < BloomBitLength -> 0 <= j < b_bloomTrieRatio b ->
  chunkOk b i j = true.
Proof.
  unfold planes_available. intros Hav Hi Hj.
  rewrite forallb_forall in Hav.
  specialize (Hav i). rewrite <- list_elem_of_In, elem_of_seqZ in Hav.
  specialize (Hav ltac:(lia)). rewrite forallb_forall in Hav.
  apply Hav. rewrite <- list_elem_of_In, elem_of_seqZ. lia.
Qed.

Lemma planes_available_head b :
  planesOk b = true -> 1 <= b_bloomTrieRatio b < 2 ^ 64 ->
  is_Some (b_sectionHeads b !! Z.to_nat (u64 (b_bloomTrieRatio b - 1))).
Proof.
  intros Hav Hr.
  pose proof (planes_available_chunk b 0 (b_bloomTrieRatio b - 1) Hav) as H.
  unfold BloomBitLength in H. specialize (H ltac:(lia) ltac:(lia)).
  unfold chunk_available in H. apply andb_true_iff in H as [H _].
  apply bool_decide_eq_true in H.
  unfold u64. by rewrite Z.mod_small by lia.
Qed.

Lemma BloomCommit_loop_done b t :
  b_trie b = Some t -> planesOk b = true ->
  bitLoop (Z.to_nat BloomBitLength) 0 b
  = Next tt (with_trie b (Some (committedPlanes b t))).
Proof.
  intros Ht Hav. unfold planes_available in Hav. unfold committed_planes.
  rewrite (Commit_bitLoop_ok b t); [|exact Ht|rewrite seqZ_to_nat; exact Hav].
  rewrite seqZ_to_nat. reflexivity.
Qed.

Lemma BloomCommit_trie b t :
  b_trie b = Some t -> planesOk b = true ->
  b_trie (final_state (BloomCommit b)) = Some (committedPlanes b t).
Proof.
  intros Ht Hav. unfold BloomTrieIndexerBackend_Commit.
  rewrite (BloomCommit_loop_done b t) by done.
  cbn [obind b_trie b_db b_cdb]. unfold Trie_CommitTo, Table_NewBatch.
  cbn [batch_failPut]. destruct (failBatchPut _); [done|].
  destruct (Batch_Write _ _) as [db1 e].
  cbn [b_sectionHeads b_bloomTrieRatio].
  by destruct (b_sectionHeads b !! _).
Qed.

Lemma BloomCommit_returns b t :
  b_trie b = Some t -> planesOk b = true -> 1 <= b_bloomTrieRatio b < 2 ^ 64 ->
  panicked (BloomCommit b) = false
  /\ returned_error (BloomCommit b)
     = if failBatchPut (db_faults (b_db b)) then Some ErrBatchPut else None.
Proof.
  intros Ht Hav Hr. unfold BloomTrieIndexerBackend_Commit.
  rewrite (BloomCommit_loop_done b t) by done.
  cbn [obind b_trie b_db b_cdb]. unfold Trie_CommitTo, Table_NewBatch.
  cbn [batch_failPut]. destruct (failBatchPut _); [done|].
  destruct (Batch_Write _ _) as [db1 e].
  cbn [b_sectionHeads b_bloomTrieRatio].
  by destruct (planes_available_head b Hav Hr) as [head ->].
Qed.

Lemma BloomCommit_nodes b t :
  b_trie b = Some t -> planesOk b = true -> 1 <= b_bloomTrieRatio b < 2 ^ 64 ->
  db_faults (b_db b) = noFaults ->
  db_nodes (b_db (final_state (BloomCommit b)))
    !! (b_cdb b ++ trieHash (committedPlanes b t))
  = Some (committedPlanes b t).
Proof.
  intros Ht Hav Hr Hf. unfold BloomTrieIndexerBackend_Commit.
  rewrite (BloomCommit_loop_done b t) by done.
  cbn [obind b_trie b_db b_cdb]. unfold Trie_CommitTo, Table_NewBatch, Batch_Write.
  cbn [batch_failPut batch_table batch_pending]. rewrite Hf.
  cbn [failBatchPut failBatchWrite noFaults app foldl fst snd
       b_sectionHeads b_bloomTrieRatio].
  destruct (planes_available_head b Hav Hr) as [head ->].
  cbn [final_state b_db]. unfold StoreBloomTrieRoot, Database_Put.
  cbn [db_faults failPut noFaults db_nodes]. apply lookup_insert_eq.
Qed.

Lemma committed_planes_lookup b t bit :
  0 <= bit < BloomBitLength ->
  committedPlanes b t !! bloomBitKey bit (b_section b)
  = match CompressBytes (plane b bit) with
    | [] => None
    | comp => Some comp
    end.
Proof.
  intros Hbit. unfold committed_planes, BloomBitLength in *.
  rewrite <- (seqZ_to_nat 0 2048).
  apply fold_commit_bit_lookup; lia.
Qed.

Lemma committed_planes_no_new_empty b t key :
  committedPlanes b t !! key = Some [] -> t !! key = Some [].
Proof. unfold committed_planes. apply fold_commit_bit_no_new_empty. Qed.

(** C1: when every slot of sectionHeads holds a head and every parent
    bit-plane can be fetched and decompressed, Commit does not panic and
    leaves a trie in which, for each bit index 0..2047, the value read back
    under the 10-byte key beU16(bit) ++ beU64(section) is the compression
    of the concatenation, for j = 0..bloomTrieRatio-1 in this order, of
    DecompressBytes(GetBloomBits(bit, section*bloomTrieRatio+j,
    sectionHeads[j]), parentSectionSize/8).  A key that is absent reads
    back as the empty byte string. *)
Theorem BloomCommit_stores_bit_planes (b : BloomTrieIndexerBackend) (t : Trie) :
  b_trie b = Some t ->
  1 <= b_bloomTrieRatio b < 2 ^ 64 ->
  planes_available DecompressBytes b = true ->
  panicked (BloomTrieIndexerBackend_Commit trieHash CompressBytes DecompressBytes b)
  = false
  /\ exists t',
       b_trie (final_state
                 (BloomTrieIndexerBackend_Commit trieHash CompressBytes
                    DecompressBytes b)) = Some t'
       /\ forall bit, 0 <= bit < 2048 ->
            default [] (t' !! (PutUint16 bit ++ PutUint64 (b_section b)))
            = CompressBytes
                (concat
                   (map (fun j =>
                           (DecompressBytes
                              (GetBloomBits (b_db b) bit
                                 (u64 (b_section b * b_bloomTrieRatio b + j))
                                 (b_sectionHeads b !!! Z.to_nat j)).1
                              (b_parentSectionSize b / 8)).1)
                        (seqZ 0 (b_bloomTrieRatio b)))).
Proof.
  intros Ht Hr Hav. split; [by apply (BloomCommit_returns b t)|].
  exists (committedPlanes b t). split; [by apply BloomCommit_trie|].
  intros bit Hbit. fold (bloomBitKey bit (b_section b)).
  rewrite committed_planes_lookup by (unfold BloomBitLength; lia).
  fold (plane b bit). by destruct (CompressBytes (plane b bit)).
Qed.

(** C2: for every bit index, Commit puts a non-empty compressed bit-plane
    into the trie under bloomBitKey(bit, section) and deletes that key when
    the compressed bit-plane is empty; it adds no key with an empty value,
    so a trie without empty values stays without them, and with a store
    that accepts its writes that trie is the one committed under its root. *)
Theorem BloomCommit_upserts_or_deletes (b : BloomTrieIndexerBackend) (t : Trie) :
  b_trie b = Some t ->
  1 <= b_bloomTrieRatio b < 2 ^ 64 ->
  planes_available DecompressBytes b = true ->
  exists t',
    b_trie (final_state
              (BloomTrieIndexerBackend_Commit trieHash CompressBytes
                 DecompressBytes b)) = Some t'
    /\ (forall bit, 0 <= bit < 2048 ->
          let comp := CompressBytes (bitPlane DecompressBytes b bit) in
          (comp <> [] -> t' !! bloomBitKey bit (b_section b) = Some comp)
          /\ (comp = [] -> t' !! bloomBitKey bit (b_section b) = None))
    /\ (forall key, t' !! key = Some [] -> t !! key = Some [])
    /\ ((forall key, t !! key <> Some []) -> forall key, t' !! key <> Some [])
    /\ (db_faults (b_db b) = noFaults ->
        db_nodes (b_db (final_state
                          (BloomTrieIndexerBackend_Commit trieHash CompressBytes
                             DecompressBytes b)))
          !! (b_cdb b ++ trieHash t') = Some t').
Proof.
  intros Ht Hr Hav.
  exists (committedPlanes b t). split; [by apply BloomCommit_trie|].
  split; [|split; [|split]].
  - intros bit Hbit comp.
    rewrite committed_planes_lookup by (unfold BloomBitLength; lia).
    fold comp. by destruct comp.
  - apply committed_planes_no_new_empty.
  - intros Hno key Hkey. apply committed_planes_no_new_empty in Hkey.
    by apply (Hno key).
  - intros Hf. by apply BloomCommit_nodes.
Qed.

(** *** Errors *)

Lemma BloomCommit_fetch_error b t :
  b_trie b = Some t ->
  heads_recorded b = true ->
  planesOk b = false ->
  exists bit j e,
    0 <= bit < BloomBitLength
    /\ 0 <= j < b_bloomTrieRatio b
    /\ chunkErr b bit j = Some e
    /\ BloomCommit b = Return e (final_state (BloomCommit b))
    /\ b_db (final_state (BloomCommit b)) = b_db b.
Proof.
  intros Ht Hheads Hav. unfold planes_available in Hav. unfold heads_recorded in Hheads.
  rewrite <- (seqZ_to_nat 0 BloomBitLength) in Hav.
  destruct (Commit_bitLoop_fail b t _ 0 Ht Hheads Hav)
    as (bit & j & e & b' & Hbit & Hj & He & Hloop & Hdb).
  exists bit, j, e. unfold BloomTrieIndexerBackend_Commit. rewrite Hloop.
  cbn [obind final_state]. unfold BloomBitLength in *. repeat split; try done; lia.
Qed.

(** Which failures the methods return: a trie-open failure in Reset, a
    failure to fetch or decompress a parent bit-plane in the bloom-trie
    Commit, and a failure of the trie's CommitTo come back to the caller as
    errors; Commit returns an error exactly when CommitTo failed. *)
Lemma recoverable_failures_returned :
  (forall (c : ChtIndexerBackend) (s : Z) (p : Hash),
      returned_error (ChtIndexerBackend_Reset trieHash c s p)
      = (trie_New trieHash
           (if 0 <? s then GetChtRoot (c_db c) (u64 (s - 1)) p else zeroHash)
           (c_db c) (c_cdb c)).2)
  /\ (forall (b : BloomTrieIndexerBackend) (s : Z) (p : Hash),
         returned_error (BloomTrieIndexerBackend_Reset trieHash b s p)
         = (trie_New trieHash
              (if 0 <? s then GetBloomTrieRoot (b_db b) (u64 (s - 1)) p else zeroHash)
              (b_db b) (b_cdb b)).2)
  /\ (forall (b : BloomTrieIndexerBackend) (t : Trie),
         b_trie b = Some t ->
         heads_recorded b = true ->
         planes_available DecompressBytes b = false ->
         exists bit j e,
           0 <= bit < 2048
           /\ 0 <= j < b_bloomTrieRatio b
           /\ chunk_error DecompressBytes b bit j = Some e
           /\ returned_error
                (BloomTrieIndexerBackend_Commit trieHash CompressBytes
                   DecompressBytes b) = Some e)
  /\ (forall (c : ChtIndexerBackend) (t : Trie),
         c_trie c = Some t ->
         returned_error (ChtIndexerBackend_Commit trieHash c)
         = if failBatchPut (db_faults (c_db c)) then Some ErrBatchPut else None)
  /\ (forall (b : BloomTrieIndexerBackend) (t : Trie),
         b_trie b = Some t ->
         planes_available DecompressBytes b = true ->
         1 <= b_bloomTrieRatio b < 2 ^ 64 ->
         returned_error
           (BloomTrieIndexerBackend_Commit trieHash CompressBytes DecompressBytes b)
         = if failBatchPut (db_faults (b_db b)) then Some ErrBatchPut else None).
Proof.
  split; [|split; [|split; [|split]]].
  - intros c s p. unfold ChtIndexerBackend_Reset.
    by destruct (trie_New _ _ _ _) as [t [e|]].
  - intros b s p. unfold BloomTrieIndexerBackend_Reset.
    by destruct (trie_New _ _ _ _) as [t [e|]].
  - intros b t Ht Hheads Hav.
    destruct (BloomCommit_fetch_error b t Ht Hheads Hav)
      as (bit & j & e & Hbit & Hj & He & Hret & _).
    exists bit, j, e. rewrite Hret. unfold BloomBitLength in Hbit.
    repeat split; try done; lia.
  - intros c t Ht. rewrite (ChtCommit_open trieHash c t Ht).
    by destruct (failBatchPut _).
  - intros b t Ht Hav Hr. by apply (BloomCommit_returns b t).
Qed.

(** *** The section-head array *)

Lemma Commit_parentLoop_state b i n j decomp :
  final_state (parentLoop b i n j decomp) = b.
Proof.
  revert j decomp. induction n as [|n IH]; intros j decomp; [done|].
  rewrite Commit_parentLoop_step.
  destruct (b_sectionHeads b !! Z.to_nat j); [|done].
  destruct (chunkErr b i j); [done|]. apply IH.
Qed.

Lemma Commit_bitLoop_config n i b :
  b_parentSectionSize (final_state (bitLoop n i b)) = b_parentSectionSize b
  /\ b_bloomTrieRatio (final_state (bitLoop n i b)) = b_bloomTrieRatio b
  /\ b_sectionHeads (final_state (bitLoop n i b)) = b_sectionHeads b.
Proof.
  revert i b. induction n as [|n IH]; intros i b; [done|].
  cbn [Commit_bitLoop].
  pose proof (Commit_parentLoop_state b i (Z.to_nat (b_bloomTrieRatio b)) 0 []) as Hst.
  destruct (parentLoop b i _ 0 []) as [decomp b0|e b0|b0];
    cbn [final_state] in Hst; subst b0; cbn [obind]; [|done|done].
  destruct (b_trie b); [|done].
  exact (IH _ (mkBloomTrieIndexerBackend _ _ _ _ _ _ _)).
Qed.

Lemma BloomCommit_config b :
  b_parentSectionSize (final_state (BloomCommit b)) = b_parentSectionSize b
  /\ b_bloomTrieRatio (final_state (BloomCommit b)) = b_bloomTrieRatio b
  /\ b_sectionHeads (final_state (BloomCommit b)) = b_sectionHeads b.
Proof.
  unfold BloomTrieIndexerBackend_Commit.
  pose proof (Commit_bitLoop_config (Z.to_nat BloomBitLength) 0 b) as Hcfg.
  destruct (bitLoop _ 0 b) as [[] b0|e b0|b0]; cbn [final_state obind] in *;
    [|done|done].
  destruct (b_trie b0); [|done].
  unfold Trie_CommitTo, Table_NewBatch. cbn [batch_failPut].
  destruct (failBatchPut _); [done|].
  destruct (Batch_Write _ _) as [db1 e].
  cbn [b_sectionHeads b_bloomTrieRatio].
  by destruct (b_sectionHeads b0 !! _).
Qed.

(** The array of section heads is allocated once, with bloomTrieRatio
    slots, and never resized; the sizes are the constructor's. *)
Lemma BloomReachable_sizes b :
  BloomReachable trieHash CompressBytes DecompressBytes b ->
  (b_parentSectionSize b = 32768 \/ b_parentSectionSize b = 4096)
  /\ b_bloomTrieRatio b = 32768 / b_parentSectionSize b
  /\ length (b_sectionHeads b) = Z.to_nat (b_bloomTrieRatio b).
Proof.
  induction 1 as [db [|]|b s p _ IH|b header _ IH|b _ IH].
  - cbn. rewrite length_replicate. auto.
  - cbn. rewrite length_replicate. auto.
  - unfold BloomTrieIndexerBackend_Reset.
    by destruct (trie_New _ _ _ _) as [t [e|]].
  - unfold BloomTrieIndexerBackend_Process.
    destruct (_ =? 0); [done|]. destruct (_ =? 0); [|done].
    case_bool_decide; [|done]. cbn [final_state b_parentSectionSize b_bloomTrieRatio
                                      b_sectionHeads].
    by rewrite length_insert.
  - destruct (BloomCommit_config b) as (-> & -> & ->). done.
Qed.

Lemma section_offset (s n : Z) :
  0 <= s -> s * 32768 <= n < (s + 1) * 32768 ->
  u64 (s * BloomTrieFrequency) <= Uint64 n
  /\ u64 (Uint64 n - u64 (s * BloomTrieFrequency)) = n - s * 32768.
Proof.
  intros Hs Hn. unfold Uint64, u64, BloomTrieFrequency.
  rewrite Z.abs_eq by lia.
  pose proof (Z.div_mod (s * 32768) (2 ^ 64) ltac:(lia)) as Hdm.
  pose proof (Z.mod_pos_bound (s * 32768) (2 ^ 64) ltac:(lia)) as Hb.
  set (q := s * 32768 / 2 ^ 64) in *. set (B := (s * 32768) mod 2 ^ 64) in *.
  change (2 ^ 64) with (32768 * 562949953421312) in *.
  assert (HB : B + 32768 <= 32768 * 562949953421312) by lia.
  assert (Hn' : n mod (32768 * 562949953421312) = B + (n - s * 32768)).
  { symmetry. apply Z.mod_unique with (q := q); lia. }
  rewrite Hn'. split; [lia|].
  replace (B + (n - s * 32768) - B) with (n - s * 32768) by lia.
  apply Z.mod_small. lia.
Qed.

(** C9: for a backend built by NewBloomTrieIndexer and driven through its
    methods, and a header whose block number lies in the current section,
    the subtraction in Process does not underflow and yields the header's
    offset in the section; the slot index num/parentSectionSize is below
    bloomTrieRatio and inside sectionHeads; bloomTrieRatio is at least 1
    and sectionHeads[bloomTrieRatio-1] of Commit is inside the array; and
    Process does not panic. *)
Theorem BloomProcess_in_bounds (b : BloomTrieIndexerBackend) (header : Header) :
  BloomReachable trieHash CompressBytes DecompressBytes b ->
  0 <= b_section b ->
  b_section b * 32768 <= Number header < (b_section b + 1) * 32768 ->
  let num := u64 (Uint64 (Number header) - u64 (b_section b * BloomTrieFrequency)) in
  u64 (b_section b * BloomTrieFrequency) <= Uint64 (Number header)
  /\ num = Number header - b_section b * 32768
  /\ 0 <= num / b_parentSectionSize b < b_bloomTrieRatio b
  /\ (Z.to_nat (num / b_parentSectionSize b) < length (b_sectionHeads b))%nat
  /\ 1 <= b_bloomTrieRatio b
  /\ (Z.to_nat (u64 (b_bloomTrieRatio b - 1)) < length (b_sectionHeads b))%nat
  /\ panicked (BloomTrieIndexerBackend_Process b header) = false.
Proof.
  intros Hreach Hs Hn num.
  destruct (BloomReachable_sizes b Hreach) as (Hpss & Hratio & Hlen).
  destruct (section_offset _ _ Hs Hn) as [Hle Hnum]. fold num in Hnum.
  assert (Hslot : 0 <= num / b_parentSectionSize b < b_bloomTrieRatio b).
  { rewrite Hratio, Hnum.
    destruct Hpss as [-> | ->].
    - change (32768 / 32768) with 1. rewrite Z.div_small by lia. lia.
    - change (32768 / 4096) with 8. split.
      + apply Z.div_pos; lia.
      + apply Z.div_lt_upper_bound; lia. }
  assert (Hone : 1 <= b_bloomTrieRatio b).
  { rewrite Hratio. destruct Hpss as [-> | ->]; done. }
  assert (Hlast : u64 (b_bloomTrieRatio b - 1) = b_bloomTrieRatio b - 1).
  { unfold u64. apply Z.mod_small. rewrite Hratio.
    destruct Hpss as [-> | ->]; done. }
  repeat split; try done; try lia.
  unfold BloomTrieIndexerBackend_Process. fold num.
  destruct (Z.eqb_spec (b_parentSectionSize b) 0) as [Hz|Hz];
    [destruct Hpss; lia|].
  destruct (_ =? 0); [|done].
  rewrite bool_decide_eq_true_2 by lia. done.
Qed.

End BloomProperties.

(** C10: Process of the bloom-trie backend changes at most one slot of
    sectionHeads and nothing else: the store, the trie and the other fields
    are as before, also after any sequence of Process calls. *)
Theorem BloomProcess_frame (b : BloomTrieIndexerBackend) (header : Header)
    (headers : list Header) :
  (b_db (final_state (BloomTrieIndexerBackend_Process b header)) = b_db b
   /\ b_trie (final_state (BloomTrieIndexerBackend_Process b header)) = b_trie b
   /\ b_cdb (final_state (BloomTrieIndexerBackend_Process b header)) = b_cdb b
   /\ b_section (final_state (BloomTrieIndexerBackend_Process b header)) = b_section b
   /\ b_parentSectionSize (final_state (BloomTrieIndexerBackend_Process b header))
      = b_parentSectionSize b
   /\ b_bloomTrieRatio (final_state (BloomTrieIndexerBackend_Process b header))
      = b_bloomTrieRatio b
   /\ length (b_sectionHeads (final_state (BloomTrieIndexerBackend_Process b header)))
      = length (b_sectionHeads b)
   /\ exists slot : nat, forall k : nat, k <> slot ->
        b_sectionHeads (final_state (BloomTrieIndexerBackend_Process b header)) !! k
        = b_sectionHeads b !! k)
  /\ b_db (final_state (BloomTrieIndexerBackend_ProcessAll b headers)) = b_db b
  /\ b_trie (final_state (BloomTrieIndexerBackend_ProcessAll b headers)) = b_trie b.
Proof.
  assert (H1 : forall b header,
    b_db (final_state (BloomTrieIndexerBackend_Process b header)) = b_db b
    /\ b_trie (final_state (BloomTrieIndexerBackend_Process b header)) = b_trie b).
  { intros b0 h. unfold BloomTrieIndexerBackend_Process.
    destruct (_ =? 0); [done|]. destruct (_ =? 0); [|done].
    by case_bool_decide. }
  split.
  - unfold BloomTrieIndexerBackend_Process.
    set (slot := Z.to_nat (_ / _)).
    destruct (_ =? 0); [repeat split; try done; by exists 0%nat|].
    destruct (_ =? 0); [|repeat split; try done; by exists 0%nat].
    case_bool_decide; [|repeat split; try done; by exists 0%nat].
    cbn [final_state b_db b_trie b_cdb b_section b_parentSectionSize b_bloomTrieRatio
         b_sectionHeads].
    repeat split; try done; [apply length_insert|].
    exists slot. intros k Hk. by apply list_lookup_insert_ne.
  - revert b. induction headers as [|h hs IH]; intros b; [done|].
    cbn [BloomTrieIndexerBackend_ProcessAll].
    destruct (H1 b h) as [Hdb Htrie].
    destruct (BloomTrieIndexerBackend_Process b h) as [[] b1|e b1|b1];
      cbn [obind final_state] in *; [|done|done].
    destruct (IH b1) as [-> ->]. done.
Qed.

(** ** The theorems at concrete inputs *)

Lemma root_lookup_absent_is_zero_witness :
  GetChtRoot sample_db 3 sample_hash = zeroHash
  /\ GetBloomTrieRoot sample_db 3 sample_hash = zeroHash.
Proof.
  destruct (root_lookup_absent_is_zero sample_db 3 sample_hash) as [H1 H2].
  split; [apply H1 | apply H2]; vm_compute; reflexivity.
Defined.

Lemma ChtProcess_missing_td_panics_witness :
  exists c',
    ChtIndexerBackend_Process sample_EncodeToBytes sample_cht (mkHeader 6 sample_hash)
    = Panic c'
    /\ c_trie c' = c_trie sample_cht
    /\ c_db c' = c_db sample_cht.
Proof.
  apply (ChtProcess_missing_td_panics sample_EncodeToBytes sample_cht
           (mkHeader 6 sample_hash)).
  vm_compute; reflexivity.
Defined.

Lemma ChtProcess_inserts_and_Commit_records_witness :
  exists c1 c2,
    ChtIndexerBackend_Process sample_EncodeToBytes sample_cht sample_header = Next tt c1
    /\ c_trie c1
       = Some (<[PutUint64 5 := 192 :: sample_hash ++ [77]]> (∅ : Trie))
    /\ c_lastHash c1 = sample_hash
    /\ ChtIndexerBackend_Commit sample_trieHash c1 = Next tt c2
    /\ db_data (c_db c2) !! ((chtPrefix ++ PutUint64 0) ++ sample_hash)
       = Some (sample_trieHash (<[PutUint64 5 := 192 :: sample_hash ++ [77]]> ∅)).
Proof.
  apply (ChtProcess_inserts_and_Commit_records sample_trieHash sample_EncodeToBytes
           sample_cht sample_header 77 ∅); vm_compute; reflexivity.
Defined.

Lemma ChtCycle_twice_same_root_witness :
  exists c1 c2 t,
    ChtIndexerBackend_Cycle sample_trieHash sample_EncodeToBytes sample_cht 0 zeroHash
      [sample_header] = Next tt c1
    /\ ChtIndexerBackend_Cycle sample_trieHash sample_EncodeToBytes c1 0 zeroHash
         [sample_header] = Next tt c2
    /\ c_trie c1 = Some t
    /\ c_trie c2 = Some t
    /\ c_lastHash c2 = c_lastHash c1
    /\ db_data (c_db c1) !! ((chtPrefix ++ PutUint64 0) ++ c_lastHash c1)
       = Some (sample_trieHash t)
    /\ c_db c2 = c_db c1.
Proof.
  apply (ChtCycle_twice_same_root sample_trieHash sample_EncodeToBytes sample_cht 0
           zeroHash [sample_header]).
  - repeat constructor. exists 77. vm_compute; reflexivity.
  - vm_compute; reflexivity.
  - vm_compute; reflexivity.
Defined.

Lemma sample_bloom_planes :
  planes_available sample_DecompressBytes sample_bloom = true.
Proof. vm_compute; reflexivity. Qed.

Lemma sample_bloom_two_planes :
  planes_available sample_DecompressBytes sample_bloom_two = true.
Proof. vm_compute; reflexivity. Qed.

Lemma BloomCommit_stores_bit_planes_witness :
  panicked (BloomTrieIndexerBackend_Commit sample_trieHash sample_CompressBytes
              sample_DecompressBytes sample_bloom_two) = false
  /\ exists t',
       b_trie (final_state
                 (BloomTrieIndexerBackend_Commit sample_trieHash sample_CompressBytes
                    sample_DecompressBytes sample_bloom_two)) = Some t'
       /\ default [] (t' !! (PutUint16 1 ++ PutUint64 3)) = [1; 0; 2; 0]
       /\ default [] (t' !! (PutUint16 2 ++ PutUint64 3)) = [2; 0; 4; 0]
       /\ default [] (t' !! (PutUint16 0 ++ PutUint64 3)) = [].
Proof.
  destruct (BloomCommit_stores_bit_planes sample_trieHash sample_CompressBytes
              sample_DecompressBytes sample_bloom_two {[ bloomBitKey 0 3 := [9] ]})
    as [Hpanic (t' & Ht' & Hbits)].
  - reflexivity.
  - split; by vm_compute.
  - apply sample_bloom_two_planes.
  - split; [exact Hpanic|]. exists t'. split; [exact Ht'|].
    pose proof (Hbits 1 ltac:(lia)) as H1.
    pose proof (Hbits 2 ltac:(lia)) as H2.
    pose proof (Hbits 0 ltac:(lia)) as H0.
    split; [|split].
    + etrans; [exact H1|]. vm_compute; reflexivity.
    + etrans; [exact H2|]. vm_compute; reflexivity.
    + etrans; [exact H0|]. vm_compute; reflexivity.
Defined.

Lemma BloomCommit_upserts_or_deletes_witness :
  exists t',
    b_trie (final_state
              (BloomTrieIndexerBackend_Commit sample_trieHash sample_CompressBytes
                 sample_DecompressBytes sample_bloom)) = Some t'
    /\ forall key, t' !! key <> Some [].
Proof.
  destruct (BloomCommit_upserts_or_deletes sample_trieHash sample_CompressBytes
              sample_DecompressBytes sample_bloom ∅)
    as (t' & Ht' & _ & _ & Hkeep & _).
  - reflexivity.
  - split; by vm_compute.
  - apply sample_bloom_planes.
  - exists t'. split; [exact Ht'|]. apply Hkeep. intros key. by rewrite lookup_empty.
Defined.

Lemma recoverable_failures_returned_witness :
  (exists bit j e,
      0 <= bit < 2048 /\ 0 <= j < 8
      /\ chunk_error sample_DecompressBytes sample_bloom_missing bit j = Some e
      /\ returned_error
           (BloomTrieIndexerBackend_Commit sample_trieHash sample_CompressBytes
              sample_DecompressBytes sample_bloom_missing) = Some e)
  /\ returned_error (ChtIndexerBackend_Commit sample_trieHash sample_cht_failing) = None
  /\ returned_error
       (BloomTrieIndexerBackend_Commit sample_trieHash sample_CompressBytes
          sample_DecompressBytes sample_bloom) = None.
Proof.
  destruct (recoverable_failures_returned sample_trieHash sample_CompressBytes
              sample_DecompressBytes) as (_ & _ & Hfetch & Hcht & Hblt).
  split; [|split].
  - apply (Hfetch sample_bloom_missing ∅); vm_compute; reflexivity.
  - apply (Hcht sample_cht_failing ∅). reflexivity.
  - apply (Hblt sample_bloom ∅); [reflexivity|apply sample_bloom_planes|split; by vm_compute].
Defined.

(** C6: the claim is what the error handling of Commit sets out to do, and
    the code misses it: Commit returns the error of CommitTo, but calls
    batch.Write() and, through StoreChtRoot, db.Put as bare statements.  On a
    store whose Batch.Write and Put both fail, the CHT Commit loses the trie
    and the root record and still returns nil, leaving the store as it was. *)
Lemma store_write_failure_not_returned :
  (Batch_Write (mkBatch ChtTablePrefix [(sample_trieHash ∅, ∅)] false)
               sample_db_failing).2 = Some ErrBatchWrite
  /\ (Database_Put sample_db_failing ((chtPrefix ++ PutUint64 0) ++ sample_hash)
                   (sample_trieHash ∅)).2 = Some ErrPut
  /\ ChtIndexerBackend_Commit sample_trieHash sample_cht_failing
     = Next tt sample_cht_failing.
Proof. repeat split; vm_compute; reflexivity. Qed.

(** What the dropped errors lead to.  When only the Put of the root record
    fails, Commit returns nil and the Reset for the next section, finding no
    record, silently opens the empty trie instead of the committed one.  When
    only Batch.Write fails, Commit returns nil, the root record names a trie
    that was never written, and the Reset for the next section fails. *)
Lemma dropped_write_errors_break_the_next_Reset :
  returned_error (ChtIndexerBackend_Commit sample_trieHash sample_cht_put_failing)
  = None
  /\ returned_error
       (ChtIndexerBackend_Reset sample_trieHash
          (final_state (ChtIndexerBackend_Commit sample_trieHash sample_cht_put_failing))
          1 sample_hash)
     = None
  /\ c_trie
       (final_state
          (ChtIndexerBackend_Reset sample_trieHash
             (final_state
                (ChtIndexerBackend_Commit sample_trieHash sample_cht_put_failing))
             1 sample_hash))
     = Some ∅
  /\ returned_error (ChtIndexerBackend_Commit sample_trieHash sample_cht_write_failing)
     = None
  /\ returned_error
       (ChtIndexerBackend_Reset sample_trieHash
          (final_state
             (ChtIndexerBackend_Commit sample_trieHash sample_cht_write_failing))
          1 sample_hash)
     = Some ErrMissingNode.
Proof. repeat split; vm_compute; reflexivity. Qed.

Lemma BloomProcess_in_bounds_witness :
  panicked (BloomTrieIndexerBackend_Process
              (ci_backend (NewBloomTrieIndexer sample_db false))
              (mkHeader 4095 sample_hash)) = false.
Proof.
  apply (BloomProcess_in_bounds sample_trieHash sample_CompressBytes
           sample_DecompressBytes
           (ci_backend (NewBloomTrieIndexer sample_db false))
           (mkHeader 4095 sample_hash)).
  - apply reach_new.
  - by vm_compute.
  - split; by vm_compute.
Defined.

(** * Further properties of the code *)

(** ** Root records *)

(** The key of a root record determines the section index, as a uint64, and
    the section head. *)
Lemma root_key_inj (prefix : bytes) (s s' : Z) (h h' : Hash) :
  (prefix ++ PutUint64 s) ++ h = (prefix ++ PutUint64 s') ++ h' ->
  u64 s = u64 s' /\ h = h'.
Proof.
  intros Heq. rewrite <- !(assoc_L (++)) in Heq. apply app_inv_head in Heq.
  pose proof (f_equal (take 8) Heq) as Ht.
  rewrite !take_app_length' in Ht by reflexivity.
  split; [by apply PutUint64_inj|].
  rewrite Ht in Heq. by apply app_inv_head in Heq.
Qed.

Lemma root_prefix_ne (s s' : Z) (h h' : Hash) :
  (chtPrefix ++ PutUint64 s) ++ h ≠ (bloomTriePrefix ++ PutUint64 s') ++ h'.
Proof.
  intros Heq. rewrite <- !(assoc_L (++)) in Heq. by inversion Heq.
Qed.

(** X1: with a store that accepts the Put, the 32-byte root written by
    StoreChtRoot for a section and head is what GetChtRoot then reads. *)
Theorem StoreChtRoot_GetChtRoot (db : Database) (s : Z) (h root : Hash) :
  failPut (db_faults db) = false ->
  length root = HashLength ->
  GetChtRoot (StoreChtRoot db s h root) s h = root.
Proof.
  intros Hf Hlen. unfold GetChtRoot, Database_Get.
  rewrite StoreChtRoot_data by done. by apply BytesToHash_id.
Qed.

(** X2: the same round trip for the BloomTrie root record. *)
Theorem StoreBloomTrieRoot_GetBloomTrieRoot (db : Database) (s : Z) (h root : Hash) :
  failPut (db_faults db) = false ->
  length root = HashLength ->
  GetBloomTrieRoot (StoreBloomTrieRoot db s h root) s h = root.
Proof.
  intros Hf Hlen.
  unfold GetBloomTrieRoot, StoreBloomTrieRoot, Database_Get, Database_Put.
  rewrite Hf. cbn [db_data]. rewrite lookup_insert_eq. by apply BytesToHash_id.
Qed.

(** X3: storing a root for one (section, head) pair leaves the root read for
    every pair with another section index (as uint64) or another head as it
    was, for the CHT and for the BloomTrie records. *)
Theorem Store_root_other_pair (db : Database) (s s' : Z) (h h' root : Hash) :
  u64 s <> u64 s' \/ h <> h' ->
  GetChtRoot (StoreChtRoot db s h root) s' h' = GetChtRoot db s' h'
  /\ GetBloomTrieRoot (StoreBloomTrieRoot db s h root) s' h'
     = GetBloomTrieRoot db s' h'.
Proof.
  intros Hne.
  assert (Hk : forall prefix,
             (prefix ++ PutUint64 s) ++ h ≠ (prefix ++ PutUint64 s') ++ h').
  { intros prefix Heq. apply root_key_inj in Heq as [? ?]. by destruct Hne. }
  unfold GetChtRoot, GetBloomTrieRoot, StoreChtRoot, StoreBloomTrieRoot,
    Database_Get, Database_Put.
  destruct (failPut _); [done|]. cbn [db_data].
  by rewrite !lookup_insert_ne by apply Hk.
Qed.

(** X4: the CHT and the BloomTrie root records never overwrite each other:
    storing one kind of root changes no root of the other kind. *)
Theorem Store_root_other_kind (db : Database) (s s' : Z) (h h' root : Hash) :
  GetChtRoot (StoreBloomTrieRoot db s h root) s' h' = GetChtRoot db s' h'
  /\ GetBloomTrieRoot (StoreChtRoot db s h root) s' h' = GetBloomTrieRoot db s' h'.
Proof.
  unfold GetChtRoot, GetBloomTrieRoot, StoreChtRoot, StoreBloomTrieRoot,
    Database_Get, Database_Put.
  destruct (failPut _); [done|]. cbn [db_data].
  rewrite lookup_insert_ne by (apply not_eq_sym, root_prefix_ne).
  by rewrite lookup_insert_ne by apply root_prefix_ne.
Qed.

(** X5: a CHT root stored under the v1 section (v2+1)*8-1 is what
    GetChtV2Root reads for the v2 section, for every v2 below 2^61, where the
    conversion does not wrap around. *)
Theorem StoreChtRoot_GetChtV2Root (db : Database) (v2 : Z) (h root : Hash) :
  0 <= v2 < 2 ^ 61 ->
  failPut (db_faults db) = false ->
  length root = HashLength ->
  GetChtV2Root (StoreChtRoot db ((v2 + 1) * 8 - 1) h root) v2 h = root.
Proof.
  intros Hv Hf Hlen. unfold GetChtV2Root. rewrite v1_section_no_wrap by done.
  unfold GetChtRoot, Database_Get.
  rewrite StoreChtRoot_data by done. by apply BytesToHash_id.
Qed.

(** ** Reset *)

Section ResetProperties.

Variable trieHash : Trie -> Hash.
Variable EncodeToBytes : ChtNode -> bytes * option error.
Variable CompressBytes : bytes -> bytes.
Variable DecompressBytes : bytes -> Z -> bytes * option error.

Lemma trie_New_zero (db : Database) (table : bytes) :
  trie_New trieHash zeroHash db table = (Some ∅, None).
Proof.
  unfold trie_New. by rewrite (bool_decide_eq_false_2 (zeroHash ≠ zeroHash)) by auto.
Qed.

Lemma trie_New_error (root : Hash) (db : Database) (table : bytes) (e : error) :
  (trie_New trieHash root db table).2 = Some e ->
  trie_New trieHash root db table = (None, Some ErrMissingNode).
Proof.
  unfold trie_New. destruct (_ && _); [|done]. by destruct (db_nodes db !! _).
Qed.

(** X6: Reset for section 0, and Reset for a later section when no root
    record is stored for the previous section and the given head, opens the
    empty trie and reports no error, in both backends. *)
Theorem Reset_without_previous_root_is_empty
    (c : ChtIndexerBackend) (b : BloomTrieIndexerBackend) (s : Z) (p : Hash) :
  (s <= 0 \/ db_data (c_db c) !! ((chtPrefix ++ PutUint64 (s - 1)) ++ p) = None ->
   ChtIndexerBackend_Reset trieHash c s p
   = Next tt (mkChtIndexerBackend (c_db c) (c_cdb c) s (c_sectionSize c)
                (c_lastHash c) (Some ∅)))
  /\ (s <= 0
      \/ db_data (b_db b) !! ((bloomTriePrefix ++ PutUint64 (s - 1)) ++ p) = None ->
      BloomTrieIndexerBackend_Reset trieHash b s p
      = Next tt (mkBloomTrieIndexerBackend (b_db b) (b_cdb b) s
                   (b_parentSectionSize b) (b_bloomTrieRatio b) (Some ∅)
                   (b_sectionHeads b))).
Proof.
  split; intros Hcase.
  - unfold ChtIndexerBackend_Reset.
    assert (Hroot : (if 0 <? s then GetChtRoot (c_db c) (u64 (s - 1)) p else zeroHash)
                    = zeroHash).
    { destruct (Z.ltb_spec 0 s); [|done]. destruct Hcase as [?|Habs]; [lia|].
      unfold GetChtRoot, Database_Get. by rewrite PutUint64_u64, Habs. }
    by rewrite Hroot, trie_New_zero.
  - unfold BloomTrieIndexerBackend_Reset.
    assert (Hroot : (if 0 <? s then GetBloomTrieRoot (b_db b) (u64 (s - 1)) p
                     else zeroHash) = zeroHash).
    { destruct (Z.ltb_spec 0 s); [|done]. destruct Hcase as [?|Habs]; [lia|].
      unfold GetBloomTrieRoot, Database_Get. by rewrite PutUint64_u64, Habs. }
    by rewrite Hroot, trie_New_zero.
Qed.

(** X7: when the CHT Reset returns an error, the trie of the backend is nil
    and the store is untouched; a Process or a Commit that follows panics. *)
Theorem ChtReset_error_leaves_nil_trie
    (c : ChtIndexerBackend) (s : Z) (p : Hash) (e : error) :
  returned_error (ChtIndexerBackend_Reset trieHash c s p) = Some e ->
  e = ErrMissingNode
  /\ c_trie (final_state (ChtIndexerBackend_Reset trieHash c s p)) = None
  /\ c_db (final_state (ChtIndexerBackend_Reset trieHash c s p)) = c_db c
  /\ (forall header,
        panicked (ChtIndexerBackend_Process EncodeToBytes
                    (final_state (ChtIndexerBackend_Reset trieHash c s p)) header)
        = true)
  /\ panicked (ChtIndexerBackend_Commit trieHash
                 (final_state (ChtIndexerBackend_Reset trieHash c s p))) = true.
Proof.
  unfold ChtIndexerBackend_Reset.
  destruct (trie_New _ _ _ _) as [t [e'|]] eqn:Hnew; [|done].
  pose proof (trie_New_error _ _ _ e' ltac:(by rewrite Hnew)) as Hnew'.
  rewrite Hnew in Hnew'. injection Hnew' as -> ->.
  cbn [returned_error final_state]. intros [= <-].
  repeat split.
  intros header. unfold ChtIndexerBackend_Process. cbn [c_db c_trie].
  destruct (GetTd _ _ _); [|done]. by destruct (EncodeToBytes _).
Qed.

Lemma BloomCommit_nil_trie (b : BloomTrieIndexerBackend) :
  b_trie b = None ->
  final_state (BloomTrieIndexerBackend_Commit trieHash CompressBytes DecompressBytes b)
  = b
  /\ forall u b',
       BloomTrieIndexerBackend_Commit trieHash CompressBytes DecompressBytes b
       <> Next u b'.
Proof.
  intros Ht. unfold BloomTrieIndexerBackend_Commit.
  replace (Z.to_nat BloomBitLength) with (S (Z.to_nat 2047)) by reflexivity.
  cbn [Commit_bitLoop].
  pose proof (Commit_parentLoop_state DecompressBytes b 0
                (Z.to_nat (b_bloomTrieRatio b)) 0 []) as Hst.
  destruct (Commit_parentLoop _ b 0 _ 0 []) as [decomp b0|e b0|b0];
    cbn [final_state] in Hst; subst b0; cbn [obind]; [|done|done].
  by rewrite Ht.
Qed.

(** X8: when the BloomTrie Reset returns an error, the trie of the backend
    is nil and everything else is as Reset found it, with the new section
    index; a Commit that follows changes nothing and does not return nil: it
    returns a fetch error or panics. *)
Theorem BloomReset_error_leaves_nil_trie
    (b : BloomTrieIndexerBackend) (s : Z) (p : Hash) (e : error) :
  returned_error (BloomTrieIndexerBackend_Reset trieHash b s p) = Some e ->
  e = ErrMissingNode
  /\ final_state (BloomTrieIndexerBackend_Reset trieHash b s p)
     = mkBloomTrieIndexerBackend (b_db b) (b_cdb b) s (b_parentSectionSize b)
         (b_bloomTrieRatio b) None (b_sectionHeads b)
  /\ final_state
       (BloomTrieIndexerBackend_Commit trieHash CompressBytes DecompressBytes
          (final_state (BloomTrieIndexerBackend_Reset trieHash b s p)))
     = final_state (BloomTrieIndexerBackend_Reset trieHash b s p)
  /\ forall u b',
       BloomTrieIndexerBackend_Commit trieHash CompressBytes DecompressBytes
         (final_state (BloomTrieIndexerBackend_Reset trieHash b s p))
       <> Next u b'.
Proof.
  unfold BloomTrieIndexerBackend_Reset.
  destruct (trie_New _ _ _ _) as [t [e'|]] eqn:Hnew; [|done].
  pose proof (trie_New_error _ _ _ e' ltac:(by rewrite Hnew)) as Hnew'.
  rewrite Hnew in Hnew'. injection Hnew' as -> ->.
  cbn [returned_error final_state]. intros [= <-].
  split; [done|]. split; [done|]. by apply BloomCommit_nil_trie.
Qed.

(** *** From one section to the next *)

Lemma trie_New_stored (root : Hash) (db : Database) (table : bytes) (t : Trie) :
  root <> zeroHash -> root <> emptyRoot trieHash ->
  db_nodes db !! (table ++ root) = Some t ->
  trie_New trieHash root db table = (Some t, None).
Proof.
  intros Hz He Hn. unfold trie_New.
  rewrite !bool_decide_eq_true_2 by done. cbn [andb]. by rewrite Hn.
Qed.

(** X9: after a CHT Commit on a store that accepts its writes, Reset for
    the next section with the committed last hash opens the committed trie
    again, provided its root is a 32-byte hash other than the zero hash and
    the root of the empty trie. *)
Theorem ChtCommit_then_Reset_reopens (c : ChtIndexerBackend) (t : Trie) :
  c_trie c = Some t ->
  db_faults (c_db c) = noFaults ->
  0 <= c_section c ->
  length (trieHash t) = HashLength ->
  trieHash t <> zeroHash ->
  trieHash t <> emptyRoot trieHash ->
  exists c1,
    ChtIndexerBackend_Commit trieHash c = Next tt c1
    /\ ChtIndexerBackend_Reset trieHash c1 (c_section c + 1) (c_lastHash c)
       = Next tt (mkChtIndexerBackend (c_db c1) (c_cdb c) (c_section c + 1)
                    (c_sectionSize c) (c_lastHash c) (Some t)).
Proof.
  intros Ht Hf Hs Hlen Hz He.
  rewrite (ChtCommit_open trieHash c t Ht), Hf. cbn [failBatchPut noFaults].
  eexists. split; [reflexivity|].
  unfold ChtIndexerBackend_Reset. cbn [c_db c_cdb c_sectionSize c_lastHash].
  destruct (Z.ltb_spec 0 (c_section c + 1)) as [_|?]; [|lia].
  replace (c_section c + 1 - 1) with (c_section c) by lia.
  assert (Hroot : GetChtRoot (committed_db trieHash c t) (u64 (c_section c))
                    (c_lastHash c) = trieHash t).
  { rewrite GetChtRoot_u64. unfold committed_db.
    unfold GetChtRoot, StoreChtRoot, Database_Get, Database_Put.
    rewrite Batch_Write_faults, Hf. cbn [failPut noFaults db_data].
    rewrite lookup_insert_eq. by apply BytesToHash_id. }
  rewrite Hroot.
  rewrite (trie_New_stored _ _ _ t); [done|done|done|].
  unfold committed_db, StoreChtRoot, Database_Put, Batch_Write. rewrite Hf.
  cbn [failBatchWrite failPut noFaults fst db_faults db_nodes batch_pending
       batch_table foldl snd].
  apply lookup_insert_eq.
Qed.

End ResetProperties.

(** ** The leaves of the CHT *)

Section ChtLeaves.

Variable trieHash : Trie -> Hash.
Variable EncodeToBytes : ChtNode -> bytes * option error.

Lemma Uint64_key_inj (x y : Z) :
  PutUint64 (Uint64 x) = PutUint64 (Uint64 y) -> Uint64 x = Uint64 y.
Proof.
  intros H. apply PutUint64_inj in H. unfold Uint64 in *. by rewrite !u64_idemp in H.
Qed.

Lemma cht_leaf_keys (db : Database) (headers : list Header) :
  NoDup ((fun h => Uint64 (Number h)) <$> headers) ->
  NoDup ((cht_leaf EncodeToBytes db <$> headers).*1).
Proof.
  intros Hnd. rewrite <- list_fmap_compose.
  replace (fst ∘ cht_leaf EncodeToBytes db)
    with (PutUint64 ∘ (fun h => Uint64 (Number h))) by done.
  rewrite list_fmap_compose. apply NoDup_fmap_2_strong; [|done].
  intros x y Hx Hy Heq.
  apply list_elem_of_fmap in Hx as (hx & -> & _).
  apply list_elem_of_fmap in Hy as (hy & -> & _).
  by apply Uint64_key_inj.
Qed.

(** X10: for headers with pairwise different block numbers and recorded
    total difficulties, the trie Process builds does not depend on the order
    in which the headers are processed. *)
Theorem ChtProcessAll_order_irrelevant
    (c : ChtIndexerBackend) (t : Trie) (headers headers' : list Header) :
  c_trie c = Some t ->
  Forall (fun h => is_Some (GetTd (c_db c) (HeaderHash h) (Uint64 (Number h))))
         headers ->
  NoDup ((fun h => Uint64 (Number h)) <$> headers) ->
  headers ≡ₚ headers' ->
  c_trie (final_state (ChtIndexerBackend_ProcessAll EncodeToBytes c headers'))
  = c_trie (final_state (ChtIndexerBackend_ProcessAll EncodeToBytes c headers)).
Proof.
  intros Ht Htd Hnd Hperm.
  assert (Htd' : Forall (fun h => is_Some (GetTd (c_db c) (HeaderHash h)
                                            (Uint64 (Number h)))) headers').
  { by rewrite <- Hperm. }
  rewrite !(ChtProcessAll_present EncodeToBytes c _ t) by done.
  cbn [final_state c_trie]. f_equal. rewrite !insert_all_union. f_equal.
  apply list_to_map_proper.
  - rewrite fmap_reverse, reverse_Permutation. apply cht_leaf_keys.
    by rewrite <- Hperm.
  - rewrite !reverse_Permutation. by rewrite Hperm.
Qed.

Lemma insert_all_lookup_other (t : Trie) (leaves : list (bytes * bytes)) (key : bytes) :
  key ∉ leaves.*1 -> insert_all t leaves !! key = t !! key.
Proof.
  intros Hk. rewrite insert_all_union, lookup_union_r; [done|].
  apply not_elem_of_list_to_map_1. by rewrite fmap_reverse, elem_of_reverse.
Qed.

Lemma insert_all_lookup_in (t : Trie) (leaves : list (bytes * bytes)) (key value : bytes) :
  NoDup leaves.*1 -> (key, value) ∈ leaves ->
  insert_all t leaves !! key = Some value.
Proof.
  intros Hnd Hin. rewrite insert_all_union. apply lookup_union_Some_l.
  apply elem_of_list_to_map_1.
  - by rewrite fmap_reverse, reverse_Permutation.
  - by rewrite elem_of_reverse.
Qed.

(** X11: after Process has run on headers with pairwise different block
    numbers and recorded total difficulties, the trie holds under the
    big-endian number of each header the encoding of its hash and total
    difficulty, and every other key of the trie is as Reset left it. *)
Theorem ChtProcessAll_leaves
    (c : ChtIndexerBackend) (t : Trie) (headers : list Header) :
  c_trie c = Some t ->
  Forall (fun h => is_Some (GetTd (c_db c) (HeaderHash h) (Uint64 (Number h))))
         headers ->
  NoDup ((fun h => Uint64 (Number h)) <$> headers) ->
  exists t',
    c_trie (final_state (ChtIndexerBackend_ProcessAll EncodeToBytes c headers))
    = Some t'
    /\ (forall h td,
          h ∈ headers ->
          GetTd (c_db c) (HeaderHash h) (Uint64 (Number h)) = Some td ->
          t' !! PutUint64 (Uint64 (Number h))
          = Some (EncodeToBytes (mkChtNode (HeaderHash h) td)).1)
    /\ (forall key,
          (forall h, h ∈ headers -> key <> PutUint64 (Uint64 (Number h))) ->
          t' !! key = t !! key).
Proof.
  intros Ht Htd Hnd.
  rewrite (ChtProcessAll_present EncodeToBytes c _ t) by done.
  cbn [final_state c_trie]. eexists. split; [reflexivity|]. split.
  - intros h td Hh Hhtd. apply insert_all_lookup_in; [by apply cht_leaf_keys|].
    apply list_elem_of_fmap. exists h. split; [|done].
    unfold cht_leaf. by rewrite Hhtd.
  - intros key Hkey. apply insert_all_lookup_other.
    intros Hin. apply list_elem_of_fmap in Hin as ([k v] & -> & Hkv).
    apply list_elem_of_fmap in Hkv as (h & Heq & Hh).
    apply (Hkey h Hh). unfold cht_leaf in Heq. by injection Heq as -> _.
Qed.

(** X12: a CHT Commit that returns an error has written nothing: the
    backend and its store are exactly as before the call. *)
Theorem ChtCommit_error_writes_nothing (c : ChtIndexerBackend) (e : error) :
  returned_error (ChtIndexerBackend_Commit trieHash c) = Some e ->
  e = ErrBatchPut
  /\ final_state (ChtIndexerBackend_Commit trieHash c) = c.
Proof.
  unfold ChtIndexerBackend_Commit, Trie_CommitTo, Table_NewBatch.
  destruct (c_trie c); [|done]. cbn [batch_failPut].
  destruct (failBatchPut _); cbn [returned_error final_state].
  - by intros [= <-].
  - by destruct (Batch_Write _ _).
Qed.

End ChtLeaves.

(** ** More on the bloom-trie backend *)

Section BloomMore.

Variable trieHash : Trie -> Hash.
Variable CompressBytes : bytes -> bytes.
Variable DecompressBytes : bytes -> Z -> bytes * option error.

#[local] Abbreviation commitBit' := (commit_bit CompressBytes DecompressBytes).
#[local] Abbreviation committedPlanes' :=
  (committed_planes CompressBytes DecompressBytes).
#[local] Abbreviation BloomCommit' :=
  (BloomTrieIndexerBackend_Commit trieHash CompressBytes DecompressBytes).

Lemma fold_commit_bit_other b t (bits : list Z) key :
  (forall bit, bit ∈ bits -> key <> bloomBitKey bit (b_section b)) ->
  foldl (commitBit' b) t bits !! key = t !! key.
Proof.
  revert t. induction bits as [|i bits IH]; intros t Hkey; [done|].
  cbn [foldl]. rewrite IH by (intros bit Hbit; apply Hkey; by right).
  apply commit_bit_lookup_ne. apply Hkey. by left.
Qed.

Lemma committed_planes_other b t key :
  (forall bit, 0 <= bit < 2048 -> key <> bloomBitKey bit (b_section b)) ->
  committedPlanes' b t !! key = t !! key.
Proof.
  intros Hkey. unfold committed_planes. apply fold_commit_bit_other.
  intros bit Hbit. apply elem_of_seqZ in Hbit. apply Hkey.
  unfold BloomBitLength in Hbit. lia.
Qed.

Lemma bloomBitKey_section (bit bit' s s' : Z) :
  bloomBitKey bit s = bloomBitKey bit' s' -> u64 s = u64 s'.
Proof.
  unfold bloomBitKey. intros Heq.
  apply (f_equal (drop 2)) in Heq.
  rewrite !drop_app_length' in Heq by reflexivity.
  by apply PutUint64_inj.
Qed.

(** X13: Commit changes the trie only under the 2048 keys of its own
    section; in particular the bit-planes committed for every other section
    stay as they are. *)
Theorem BloomCommit_keeps_other_keys (b : BloomTrieIndexerBackend) (t : Trie) :
  b_trie b = Some t ->
  planes_available DecompressBytes b = true ->
  exists t',
    b_trie (final_state (BloomCommit' b)) = Some t'
    /\ (forall key,
          (forall bit, 0 <= bit < 2048 -> key <> bloomBitKey bit (b_section b)) ->
          t' !! key = t !! key)
    /\ (forall bit s,
          u64 s <> u64 (b_section b) ->
          t' !! bloomBitKey bit s = t !! bloomBitKey bit s).
Proof.
  intros Ht Hav. exists (committedPlanes' b t).
  split; [by apply BloomCommit_trie|]. split.
  - apply committed_planes_other.
  - intros bit s Hs. apply committed_planes_other.
    intros bit' _ Heq. by apply bloomBitKey_section in Heq.
Qed.

Lemma Commit_bitLoop_db n i b :
  b_db (final_state (Commit_bitLoop CompressBytes DecompressBytes n i b)) = b_db b.
Proof.
  revert i b. induction n as [|n IH]; intros i b; [done|].
  cbn [Commit_bitLoop].
  pose proof (Commit_parentLoop_state DecompressBytes b i
                (Z.to_nat (b_bloomTrieRatio b)) 0 []) as Hst.
  destruct (Commit_parentLoop _ b i _ 0 []) as [decomp b0|e b0|b0];
    cbn [final_state] in Hst; subst b0; cbn [obind]; [|done|done].
  destruct (b_trie b); [|done].
  exact (IH _ (mkBloomTrieIndexerBackend _ _ _ _ _ _ _)).
Qed.

(** X14: a bloom-trie Commit that returns an error has not written to the
    store. *)
Theorem BloomCommit_error_writes_nothing (b : BloomTrieIndexerBackend) (e : error) :
  returned_error (BloomCommit' b) = Some e ->
  b_db (final_state (BloomCommit' b)) = b_db b.
Proof.
  unfold BloomTrieIndexerBackend_Commit.
  pose proof (Commit_bitLoop_db (Z.to_nat BloomBitLength) 0 b) as Hdb.
  destruct (Commit_bitLoop _ _ _ 0 b) as [[] b0|e0 b0|b0];
    cbn [final_state obind returned_error] in *; [|done|done].
  destruct (b_trie b0); [|done].
  unfold Trie_CommitTo, Table_NewBatch. cbn [batch_failPut].
  destruct (failBatchPut _); [done|].
  destruct (Batch_Write _ _) as [db1 e1].
  cbn [b_sectionHeads b_bloomTrieRatio].
  by destruct (b_sectionHeads b0 !! _).
Qed.

(** X15: every backend built by NewBloomTrieIndexer and driven through
    Reset, Process and Commit keeps parentSectionSize * bloomTrieRatio =
    32768 with a parent section size of 32768 or 4096, and a sectionHeads
    array of exactly bloomTrieRatio slots. *)
Theorem BloomReachable_keeps_sizes (b : BloomTrieIndexerBackend) :
  BloomReachable trieHash CompressBytes DecompressBytes b ->
  (b_parentSectionSize b = 32768 \/ b_parentSectionSize b = 4096)
  /\ b_parentSectionSize b * b_bloomTrieRatio b = BloomTrieFrequency
  /\ Z.of_nat (length (b_sectionHeads b)) = b_bloomTrieRatio b.
Proof.
  intros Hreach.
  destruct (BloomReachable_sizes trieHash CompressBytes DecompressBytes b Hreach)
    as (Hpss & Hratio & Hlen).
  split; [done|]. rewrite Hlen, Hratio.
  destruct Hpss as [-> | ->]; by vm_compute.
Qed.

(** *** Recording the section heads *)

Lemma section_end_offset (pss n base : Z) :
  pss = 32768 \/ pss = 4096 ->
  (exists k, base = k * 32768) ->
  ((n - base + 1) mod pss =? 0) = ((n + 1) mod pss =? 0).
Proof.
  intros Hpss [k ->]. f_equal.
  destruct Hpss as [-> | ->].
  - replace (n - k * 32768 + 1) with (n + 1 + (- k) * 32768) by lia.
    apply Z_mod_plus_full.
  - replace (n - k * 32768 + 1) with (n + 1 + (- k * 8) * 4096) by lia.
    apply Z_mod_plus_full.
Qed.

Lemma BloomProcess_effect (b : BloomTrieIndexerBackend) (header : Header) :
  BloomReachable trieHash CompressBytes DecompressBytes b ->
  0 <= b_section b ->
  b_section b * 32768 <= Number header < (b_section b + 1) * 32768 ->
  BloomTrieIndexerBackend_Process b header
  = Next tt
      (if (Number header + 1) mod b_parentSectionSize b =? 0
       then mkBloomTrieIndexerBackend (b_db b) (b_cdb b) (b_section b)
              (b_parentSectionSize b) (b_bloomTrieRatio b) (b_trie b)
              (<[Z.to_nat ((Number header - b_section b * 32768)
                           / b_parentSectionSize b) := HeaderHash header]>
                 (b_sectionHeads b))
       else b).
Proof.
  intros Hreach Hs Hn.
  destruct (BloomReachable_sizes trieHash CompressBytes DecompressBytes b Hreach)
    as (Hpss & Hratio & Hlen).
  destruct (section_offset _ _ Hs Hn) as [_ Hnum].
  unfold BloomTrieIndexerBackend_Process. rewrite Hnum.
  destruct (Z.eqb_spec (b_parentSectionSize b) 0) as [Hz|_]; [destruct Hpss; lia|].
  assert (Hu : u64 (Number header - b_section b * 32768 + 1)
               = Number header - b_section b * 32768 + 1).
  { unfold u64. apply Z.mod_small. lia. }
  rewrite Hu, (section_end_offset _ _ _ Hpss) by (by eexists).
  destruct (_ =? 0); [|done].
  rewrite bool_decide_eq_true_2; [done|].
  rewrite Hlen, Hratio.
  assert (0 <= (Number header - b_section b * 32768) / b_parentSectionSize b
          < 32768 / b_parentSectionSize b); [|lia].
  destruct Hpss as [-> | ->].
  - change (32768 / 32768) with 1. rewrite Z.div_small by lia. lia.
  - change (32768 / 4096) with 8. split.
    + apply Z.div_pos; lia.
    + apply Z.div_lt_upper_bound; lia.
Qed.

(** X16: for a header of the current section, Process returns normally;
    when number+1 is a multiple of parentSectionSize, that is when the header
    is the last one of a parent sub-section, the slot
    (number - section*32768) / parentSectionSize then holds the header's
    hash and the other slots are as before; otherwise Process changes
    nothing. *)
Theorem BloomProcess_records_section_end
    (b : BloomTrieIndexerBackend) (header : Header) :
  BloomReachable trieHash CompressBytes DecompressBytes b ->
  0 <= b_section b ->
  b_section b * 32768 <= Number header < (b_section b + 1) * 32768 ->
  exists b',
    BloomTrieIndexerBackend_Process b header = Next tt b'
    /\ ((Number header + 1) mod b_parentSectionSize b = 0 ->
        b_sectionHeads b'
          !! Z.to_nat ((Number header - b_section b * 32768) / b_parentSectionSize b)
        = Some (HeaderHash header)
        /\ forall k : nat,
             k <> Z.to_nat ((Number header - b_section b * 32768)
                            / b_parentSectionSize b) ->
             b_sectionHeads b' !! k = b_sectionHeads b !! k)
    /\ ((Number header + 1) mod b_parentSectionSize b <> 0 -> b' = b).
Proof.
  intros Hreach Hs Hn. rewrite (BloomProcess_effect b header Hreach Hs Hn).
  eexists. split; [reflexivity|].
  destruct (Z.eqb_spec ((Number header + 1) mod b_parentSectionSize b) 0) as [He|He].
  - split; [|done]. intros _. cbn [b_sectionHeads]. split.
    + apply list_lookup_insert_eq.
      destruct (BloomReachable_sizes trieHash CompressBytes DecompressBytes b Hreach)
        as (Hpss & Hratio & Hlen).
      rewrite Hlen, Hratio.
      assert (0 <= (Number header - b_section b * 32768) / b_parentSectionSize b
              < 32768 / b_parentSectionSize b); [|lia].
      destruct Hpss as [-> | ->].
      * change (32768 / 32768) with 1. rewrite Z.div_small by lia. lia.
      * change (32768 / 4096) with 8. split;
          [apply Z.div_pos; lia | apply Z.div_lt_upper_bound; lia].
    + intros k Hk. by apply list_lookup_insert_ne.
  - split; [done|]. done.
Qed.

Lemma BloomProcessAll_app (b : BloomTrieIndexerBackend) (l1 l2 : list Header) :
  BloomTrieIndexerBackend_ProcessAll b (l1 ++ l2)
  = obind (BloomTrieIndexerBackend_ProcessAll b l1)
      (fun _ b' => BloomTrieIndexerBackend_ProcessAll b' l2).
Proof.
  revert b. induction l1 as [|h l1 IH]; intros b; [done|].
  cbn [app BloomTrieIndexerBackend_ProcessAll].
  destruct (BloomTrieIndexerBackend_Process b h) as [[] b1|e b1|b1]; cbn [obind];
    [apply IH|done|done].
Qed.

(** Slots written by the end of a parent sub-section are written by that
    block number only. *)
Lemma section_end_slot (pss x y : Z) :
  0 < pss -> 0 <= x -> 0 <= y ->
  (x + 1) mod pss = 0 -> (y + 1) mod pss = 0 ->
  x / pss = y / pss -> x = y.
Proof.
  intros Hp Hx Hy Hxe Hye Hdiv.
  pose proof (Z.div_mod (x + 1) pss ltac:(lia)) as Ex.
  pose proof (Z.div_mod (y + 1) pss ltac:(lia)) as Ey.
  rewrite Hxe in Ex. rewrite Hye in Ey.
  assert (Hqx : x / pss = (x + 1) / pss - 1).
  { symmetry. apply Z.div_unique with (r := pss - 1); [lia|]. lia. }
  assert (Hqy : y / pss = (y + 1) / pss - 1).
  { symmetry. apply Z.div_unique with (r := pss - 1); [lia|]. lia. }
  nia.
Qed.

Lemma BloomProcessAll_keeps_slot (b : BloomTrieIndexerBackend) (hs : list Header) (n0 : Z) :
  BloomReachable trieHash CompressBytes DecompressBytes b ->
  0 <= b_section b ->
  b_section b * 32768 <= n0 < (b_section b + 1) * 32768 ->
  (n0 + 1) mod b_parentSectionSize b = 0 ->
  Forall (fun h => b_section b * 32768 <= Number h < (b_section b + 1) * 32768
                   /\ Number h <> n0) hs ->
  exists b',
    BloomTrieIndexerBackend_ProcessAll b hs = Next tt b'
    /\ b_sectionHeads b' !! Z.to_nat ((n0 - b_section b * 32768) / b_parentSectionSize b)
       = b_sectionHeads b !! Z.to_nat ((n0 - b_section b * 32768) / b_parentSectionSize b).
Proof.
  intros Hreach Hs Hn0 Hend Hall. revert b Hreach Hs Hn0 Hend Hall.
  induction hs as [|h hs IH]; intros b Hreach Hs Hn0 Hend Hall.
  - by exists b.
  - apply Forall_cons in Hall as [[Hh Hne] Hall].
    cbn [BloomTrieIndexerBackend_ProcessAll].
    pose proof (reach_Process _ _ _ b h Hreach) as Hreach'.
    destruct (BloomReachable_sizes _ _ _ b Hreach) as (Hpss & _ & _).
    rewrite (BloomProcess_effect b h Hreach Hs Hh) in Hreach' |- *.
    cbn [obind final_state] in *.
    destruct (Z.eqb_spec ((Number h + 1) mod b_parentSectionSize b) 0) as [He|_].
    + destruct (IH _ Hreach' Hs Hn0 Hend Hall) as (b' & Hrun & Hslot).
      exists b'. split; [exact Hrun|].
      cbn [b_sectionHeads b_section b_parentSectionSize] in Hslot.
      rewrite Hslot. apply list_lookup_insert_ne.
      intros Heq. apply Z2Nat.inj in Heq.
      * apply Hne.
        assert (Number h - b_section b * 32768 = n0 - b_section b * 32768); [|lia].
        apply (section_end_slot (b_parentSectionSize b)); try lia.
        -- apply Z.eqb_eq.
           rewrite (section_end_offset _ _ _ Hpss) by (by eexists).
           by apply Z.eqb_eq.
        -- apply Z.eqb_eq.
           rewrite (section_end_offset _ _ _ Hpss) by (by eexists).
           by apply Z.eqb_eq.
      * apply Z.div_pos; destruct Hpss; lia.
      * apply Z.div_pos; destruct Hpss; lia.
    + by apply IH.
Qed.

Lemma slot_in_bounds (b : BloomTrieIndexerBackend) (n : Z) :
  BloomReachable trieHash CompressBytes DecompressBytes b ->
  0 <= b_section b ->
  b_section b * 32768 <= n < (b_section b + 1) * 32768 ->
  (Z.to_nat ((n - b_section b * 32768) / b_parentSectionSize b)
   < length (b_sectionHeads b))%nat.
Proof.
  intros Hreach Hs Hn.
  destruct (BloomReachable_sizes trieHash CompressBytes DecompressBytes b Hreach)
    as (Hpss & Hratio & Hlen).
  rewrite Hlen, Hratio.
  assert (0 <= (n - b_section b * 32768) / b_parentSectionSize b
          < 32768 / b_parentSectionSize b); [|lia].
  destruct Hpss as [-> | ->].
  - change (32768 / 32768) with 1. rewrite Z.div_small by lia. lia.
  - change (32768 / 4096) with 8. split.
    + apply Z.div_pos; lia.
    + apply Z.div_lt_upper_bound; lia.
Qed.

Lemma BloomProcessAll_in_section (b : BloomTrieIndexerBackend) (hs : list Header) :
  BloomReachable trieHash CompressBytes DecompressBytes b ->
  0 <= b_section b ->
  Forall (fun h => b_section b * 32768 <= Number h < (b_section b + 1) * 32768) hs ->
  exists b',
    BloomTrieIndexerBackend_ProcessAll b hs = Next tt b'
    /\ BloomReachable trieHash CompressBytes DecompressBytes b'
    /\ b_section b' = b_section b
    /\ b_parentSectionSize b' = b_parentSectionSize b.
Proof.
  intros Hreach Hs Hall. revert b Hreach Hs Hall.
  induction hs as [|h hs IH]; intros b Hreach Hs Hall.
  - by exists b.
  - apply Forall_cons in Hall as [Hh Hall].
    cbn [BloomTrieIndexerBackend_ProcessAll].
    pose proof (reach_Process _ _ _ b h Hreach) as Hreach'.
    rewrite (BloomProcess_effect b h Hreach Hs Hh) in Hreach' |- *.
    cbn [obind final_state] in *.
    destruct (_ =? 0); [|by apply IH].
    destruct (IH _ Hreach' Hs Hall) as (b' & Hrun & Hr & Hsec & Hpss).
    by exists b'.
Qed.

(** X17: after Process has run over headers of the current section, the
    slot of a parent sub-section holds the hash of the last processed header
    that ends this sub-section: later headers with other block numbers do
    not touch the slot. *)
Theorem BloomProcessAll_slot_holds_section_end
    (b : BloomTrieIndexerBackend) (l1 l2 : list Header) (h0 : Header) :
  BloomReachable trieHash CompressBytes DecompressBytes b ->
  0 <= b_section b ->
  Forall (fun h => b_section b * 32768 <= Number h < (b_section b + 1) * 32768)
         (l1 ++ h0 :: l2) ->
  (Number h0 + 1) mod b_parentSectionSize b = 0 ->
  Forall (fun h => Number h <> Number h0) l2 ->
  exists b',
    BloomTrieIndexerBackend_ProcessAll b (l1 ++ h0 :: l2) = Next tt b'
    /\ b_sectionHeads b'
         !! Z.to_nat ((Number h0 - b_section b * 32768) / b_parentSectionSize b)
       = Some (HeaderHash h0).
Proof.
  intros Hreach Hs Hall Hend Hne.
  apply Forall_app in Hall as [Hl1 Hl2]. apply Forall_cons in Hl2 as [Hh0 Hl2].
  destruct (BloomProcessAll_in_section b l1 Hreach Hs Hl1)
    as (b1 & Hrun1 & Hreach1 & Hsec1 & Hpss1).
  rewrite BloomProcessAll_app, Hrun1. cbn [obind BloomTrieIndexerBackend_ProcessAll].
  rewrite <- Hsec1, <- Hpss1 in *.
  pose proof (reach_Process _ _ _ b1 h0 Hreach1) as Hreach2.
  rewrite (BloomProcess_effect b1 h0 Hreach1 Hs Hh0) in Hreach2 |- *.
  apply Z.eqb_eq in Hend. rewrite Hend in Hreach2 |- *. apply Z.eqb_eq in Hend.
  cbn [obind final_state] in *.
  destruct (BloomProcessAll_keeps_slot _ l2 (Number h0) Hreach2 Hs Hh0 Hend)
    as (b' & Hrun & Hslot).
  { apply Forall_forall. intros h Hh.
    rewrite Forall_forall in Hl2. rewrite Forall_forall in Hne.
    split; [by apply Hl2 | by apply Hne]. }
  exists b'. split; [exact Hrun|].
  cbn [b_sectionHeads b_section b_parentSectionSize] in Hslot. rewrite Hslot.
  apply list_lookup_insert_eq. by apply slot_in_bounds.
Qed.

(** *** Committing again, and the next section *)

Lemma BloomCommit_healthy (b : BloomTrieIndexerBackend) (t : Trie) (head : Hash) :
  b_trie b = Some t ->
  planes_available DecompressBytes b = true ->
  1 <= b_bloomTrieRatio b < 2 ^ 64 ->
  failBatchPut (db_faults (b_db b)) = false ->
  b_sectionHeads b !! Z.to_nat (b_bloomTrieRatio b - 1) = Some head ->
  BloomCommit' b
  = Next tt
      (mkBloomTrieIndexerBackend
         (StoreBloomTrieRoot
            (Batch_Write
               (mkBatch (b_cdb b)
                  [(trieHash (committedPlanes' b t), committedPlanes' b t)] false)
               (b_db b)).1
            (b_section b) head (trieHash (committedPlanes' b t)))
         (b_cdb b) (b_section b) (b_parentSectionSize b) (b_bloomTrieRatio b)
         (Some (committedPlanes' b t)) (b_sectionHeads b)).
Proof.
  intros Ht Hav Hr Hf Hhead. unfold BloomTrieIndexerBackend_Commit.
  rewrite (BloomCommit_loop_done CompressBytes DecompressBytes b t) by done.
  cbn [obind b_trie b_db b_cdb]. unfold Trie_CommitTo, Table_NewBatch.
  cbn [batch_failPut batch_table batch_pending]. rewrite Hf. cbn [app].
  destruct (Batch_Write _ _) as [db1 e1] eqn:Hbw.
  cbn [b_sectionHeads b_bloomTrieRatio b_section b_cdb b_parentSectionSize b_trie fst].
  unfold u64. rewrite Z.mod_small by lia. by rewrite Hhead.
Qed.

Lemma forallb_pointwise {A} (f g : A -> bool) (l : list A) :
  (forall x, f x = g x) -> forallb f l = forallb g l.
Proof. intros H. induction l as [|x l IH]; [done|]. cbn. by rewrite H, IH. Qed.

Lemma foldl_pointwise {A B} (f g : A -> B -> A) (a : A) (l : list B) :
  (forall a b, f a b = g a b) -> foldl f a l = foldl g a l.
Proof.
  intros H. revert a. induction l as [|x l IH]; intros a; [done|].
  cbn. by rewrite H, IH.
Qed.

(** What Commit reads of a backend: two backends that agree on the bloom
    bits, the section, the sizes and the heads gather the same planes. *)
Lemma chunk_error_ext (b b' : BloomTrieIndexerBackend) i j :
  db_bloom (b_db b') = db_bloom (b_db b) ->
  b_section b' = b_section b ->
  b_bloomTrieRatio b' = b_bloomTrieRatio b ->
  b_parentSectionSize b' = b_parentSectionSize b ->
  b_sectionHeads b' = b_sectionHeads b ->
  chunk_error DecompressBytes b' i j = chunk_error DecompressBytes b i j
  /\ chunk_available DecompressBytes b' i j = chunk_available DecompressBytes b i j.
Proof.
  intros Hbl Hs Hr Hp Hh.
  unfold chunk_available, chunk_error, GetBloomBits. by rewrite Hbl, Hs, Hr, Hp, Hh.
Qed.

Lemma planes_ext (b b' : BloomTrieIndexerBackend) :
  db_bloom (b_db b') = db_bloom (b_db b) ->
  b_section b' = b_section b ->
  b_bloomTrieRatio b' = b_bloomTrieRatio b ->
  b_parentSectionSize b' = b_parentSectionSize b ->
  b_sectionHeads b' = b_sectionHeads b ->
  planes_available DecompressBytes b' = planes_available DecompressBytes b
  /\ forall t, committedPlanes' b' t = committedPlanes' b t.
Proof.
  intros Hbl Hs Hr Hp Hh. split.
  - unfold planes_available. rewrite Hr.
    apply forallb_pointwise. intros i. apply forallb_pointwise. intros j.
    by apply chunk_error_ext.
  - intros t. unfold committed_planes. apply foldl_pointwise. intros t0 i.
    unfold commit_bit, bitPlane, GetBloomBits. by rewrite Hbl, Hs, Hr, Hp, Hh.
Qed.

Lemma committed_planes_idemp (b : BloomTrieIndexerBackend) (t : Trie) :
  committedPlanes' b (committedPlanes' b t) = committedPlanes' b t.
Proof.
  apply map_eq. intros key.
  destruct (decide (key ∈ (fun bit => bloomBitKey bit (b_section b))
                            <$> seqZ 0 BloomBitLength)) as [Hin|Hnin].
  - apply list_elem_of_fmap in Hin as (bit & -> & Hbit).
    apply elem_of_seqZ in Hbit.
    by rewrite !(committed_planes_lookup CompressBytes DecompressBytes) by lia.
  - rewrite !committed_planes_other; [done| |].
    all: intros bit Hbit Heq; apply Hnin; apply list_elem_of_fmap;
      exists bit; split; [done|]; apply elem_of_seqZ; unfold BloomBitLength; lia.
Qed.

(** X18: on a store that accepts its writes, a Commit that follows a Commit
    changes nothing: it returns nil again and leaves the same trie, the same
    committed nodes and the same root record. *)
Theorem BloomCommit_twice_same (b : BloomTrieIndexerBackend) (t : Trie) :
  b_trie b = Some t ->
  planes_available DecompressBytes b = true ->
  1 <= b_bloomTrieRatio b < 2 ^ 64 ->
  db_faults (b_db b) = noFaults ->
  exists b1,
    BloomCommit' b = Next tt b1
    /\ BloomCommit' b1 = Next tt b1.
Proof.
  intros Ht Hav Hr Hf.
  destruct (planes_available_head DecompressBytes b Hav Hr) as [head Hhead].
  unfold u64 in Hhead. rewrite Z.mod_small in Hhead by lia.
  rewrite (BloomCommit_healthy b t head) by (by rewrite ?Hf).
  eexists. split; [reflexivity|].
  set (t' := committedPlanes' b t).
  set (db1 := StoreBloomTrieRoot _ _ _ _).
  set (b1 := mkBloomTrieIndexerBackend db1 _ _ _ _ _ _).
  assert (Hbloom : db_bloom db1 = db_bloom (b_db b)).
  { subst db1. unfold StoreBloomTrieRoot, Database_Put, Batch_Write. rewrite Hf.
    reflexivity. }
  destruct (planes_ext b b1 Hbloom eq_refl eq_refl eq_refl eq_refl) as [Hav1 Hcp1].
  rewrite (BloomCommit_healthy b1 t' head); [| done | by rewrite Hav1 | done | | done].
  2:{ subst b1 db1. cbn [b_db]. unfold StoreBloomTrieRoot, Database_Put, Batch_Write.
      rewrite Hf. reflexivity. }
  rewrite Hcp1. unfold t'. rewrite committed_planes_idemp. fold t'.
  subst b1. cbn [b_db b_cdb b_section b_parentSectionSize b_bloomTrieRatio
                 b_sectionHeads]. do 2 f_equal.
  subst db1. unfold StoreBloomTrieRoot, Database_Put, Batch_Write. rewrite Hf.
  cbn [failBatchWrite failPut noFaults fst snd db_faults db_data db_nodes db_td
       db_bloom batch_pending batch_table foldl].
  by rewrite !insert_insert_eq.
Qed.

(** X19: after a bloom-trie Commit on a store that accepts its writes,
    Reset for the next section with the head of the last parent sub-section
    opens the committed trie again, provided its root is a 32-byte hash
    other than the zero hash and the root of the empty trie. *)
Theorem BloomCommit_then_Reset_reopens
    (b : BloomTrieIndexerBackend) (t : Trie) (head : Hash) :
  b_trie b = Some t ->
  planes_available DecompressBytes b = true ->
  1 <= b_bloomTrieRatio b < 2 ^ 64 ->
  db_faults (b_db b) = noFaults ->
  0 <= b_section b ->
  b_sectionHeads b !! Z.to_nat (b_bloomTrieRatio b - 1) = Some head ->
  length (trieHash (committedPlanes' b t)) = HashLength ->
  trieHash (committedPlanes' b t) <> zeroHash ->
  trieHash (committedPlanes' b t) <> emptyRoot trieHash ->
  exists b1,
    BloomCommit' b = Next tt b1
    /\ BloomTrieIndexerBackend_Reset trieHash b1 (b_section b + 1) head
       = Next tt (mkBloomTrieIndexerBackend (b_db b1) (b_cdb b) (b_section b + 1)
                    (b_parentSectionSize b) (b_bloomTrieRatio b)
                    (Some (committedPlanes' b t)) (b_sectionHeads b)).
Proof.
  intros Ht Hav Hr Hf Hs Hhead Hlen Hz He.
  rewrite (BloomCommit_healthy b t head) by (by rewrite ?Hf).
  eexists. split; [reflexivity|].
  set (t' := committedPlanes' b t) in *.
  unfold BloomTrieIndexerBackend_Reset.
  cbn [b_db b_cdb b_parentSectionSize b_bloomTrieRatio b_sectionHeads].
  destruct (Z.ltb_spec 0 (b_section b + 1)) as [_|?]; [|lia].
  replace (b_section b + 1 - 1) with (b_section b) by lia.
  assert (Hroot : GetBloomTrieRoot
                    (StoreBloomTrieRoot
                       (Batch_Write (mkBatch (b_cdb b) [(trieHash t', t')] false)
                                    (b_db b)).1
                       (b_section b) head (trieHash t'))
                    (u64 (b_section b)) head = trieHash t').
  { unfold GetBloomTrieRoot, StoreBloomTrieRoot, Database_Get, Database_Put.
    rewrite Batch_Write_faults, Hf, PutUint64_u64. cbn [failPut noFaults db_data].
    rewrite lookup_insert_eq. by apply BytesToHash_id. }
  rewrite Hroot.
  rewrite (trie_New_stored trieHash _ _ _ t'); [done|done|done|].
  unfold StoreBloomTrieRoot, Database_Put, Batch_Write. rewrite Hf.
  cbn [failBatchWrite failPut noFaults fst db_faults db_nodes batch_pending
       batch_table foldl snd].
  apply lookup_insert_eq.
Qed.

End BloomMore.

(** ** Before the first Reset *)

(** X20: a backend fresh from its constructor has no trie: a CHT Process or
    Commit before the first Reset panics, and a bloom-trie Commit before the
    first Reset never returns nil and leaves the backend as it is. *)
Theorem fresh_backend_has_no_trie
    (trieHash : Trie -> Hash) (EncodeToBytes : ChtNode -> bytes * option error)
    (CompressBytes : bytes -> bytes)
    (DecompressBytes : bytes -> Z -> bytes * option error)
    (db : Database) (clientMode : bool) :
  (forall header,
      panicked (ChtIndexerBackend_Process EncodeToBytes
                  (ci_backend (NewChtIndexer db clientMode)) header) = true)
  /\ panicked (ChtIndexerBackend_Commit trieHash
                 (ci_backend (NewChtIndexer db clientMode))) = true
  /\ final_state
       (BloomTrieIndexerBackend_Commit trieHash CompressBytes DecompressBytes
          (ci_backend (NewBloomTrieIndexer db clientMode)))
     = ci_backend (NewBloomTrieIndexer db clientMode)
  /\ forall u b',
       BloomTrieIndexerBackend_Commit trieHash CompressBytes DecompressBytes
         (ci_backend (NewBloomTrieIndexer db clientMode))
       <> Next u b'.
Proof.
  split; [|split].
  - intros header. unfold ChtIndexerBackend_Process.
    destruct clientMode; cbn [NewChtIndexer ci_backend c_db c_trie];
      (destruct (GetTd _ _ _); [|done]); by destruct (EncodeToBytes _).
  - by destruct clientMode.
  - apply BloomCommit_nil_trie. by destruct clientMode.
Qed.

(** ** The further properties at concrete inputs *)

Lemma StoreChtRoot_GetChtRoot_witness :
  GetChtRoot (StoreChtRoot sample_db 3 zeroHash sample_hash) 3 zeroHash = sample_hash.
Proof. apply StoreChtRoot_GetChtRoot; reflexivity. Defined.

Lemma StoreBloomTrieRoot_GetBloomTrieRoot_witness :
  GetBloomTrieRoot (StoreBloomTrieRoot sample_db 3 zeroHash sample_hash) 3 zeroHash
  = sample_hash.
Proof. apply StoreBloomTrieRoot_GetBloomTrieRoot; reflexivity. Defined.

Lemma Store_root_other_pair_witness :
  GetChtRoot (StoreChtRoot sample_db 3 zeroHash sample_hash) 4 zeroHash
  = GetChtRoot sample_db 4 zeroHash
  /\ GetBloomTrieRoot (StoreBloomTrieRoot sample_db 3 zeroHash sample_hash) 4 zeroHash
     = GetBloomTrieRoot sample_db 4 zeroHash.
Proof. apply Store_root_other_pair. left. by vm_compute. Defined.

Lemma StoreChtRoot_GetChtV2Root_witness :
  GetChtV2Root (StoreChtRoot sample_db ((0 + 1) * 8 - 1) zeroHash sample_hash) 0 zeroHash
  = sample_hash.
Proof. apply StoreChtRoot_GetChtV2Root; [lia|reflexivity|reflexivity]. Defined.

Lemma Reset_without_previous_root_is_empty_witness :
  ChtIndexerBackend_Reset sample_trieHash sample_cht_leaf 4 sample_hash
  = Next tt (mkChtIndexerBackend sample_db ChtTablePrefix 4 ChtV1Frequency sample_hash
               (Some ∅))
  /\ BloomTrieIndexerBackend_Reset sample_trieHash sample_bloom_missing 0 sample_hash
     = Next tt (mkBloomTrieIndexerBackend sample_db BloomTrieTablePrefix 0
                  ethBloomBitsSection 8 (Some ∅) (replicate 8 sample_hash)).
Proof.
  destruct (Reset_without_previous_root_is_empty sample_trieHash sample_cht_leaf
              sample_bloom_missing 4 sample_hash) as [Hc _].
  destruct (Reset_without_previous_root_is_empty sample_trieHash sample_cht_leaf
              sample_bloom_missing 0 sample_hash) as [_ Hb].
  split; [apply Hc; right; reflexivity | apply Hb; left; lia].
Defined.

Lemma ChtReset_error_leaves_nil_trie_witness :
  c_trie (final_state
            (ChtIndexerBackend_Reset sample_trieHash
               (mkChtIndexerBackend sample_db_dangling ChtTablePrefix 0 ChtV1Frequency
                  zeroHash (Some ∅)) 1 sample_hash)) = None.
Proof.
  apply (ChtReset_error_leaves_nil_trie sample_trieHash sample_EncodeToBytes
           (mkChtIndexerBackend sample_db_dangling ChtTablePrefix 0 ChtV1Frequency
              zeroHash (Some ∅)) 1 sample_hash ErrMissingNode).
  vm_compute; reflexivity.
Defined.

Lemma BloomReset_error_leaves_nil_trie_witness :
  final_state
    (BloomTrieIndexerBackend_Reset sample_trieHash
       (mkBloomTrieIndexerBackend sample_db_dangling BloomTrieTablePrefix 0
          BloomTrieFrequency 1 (Some ∅) [zeroHash]) 1 sample_hash)
  = mkBloomTrieIndexerBackend sample_db_dangling BloomTrieTablePrefix 1
      BloomTrieFrequency 1 None [zeroHash].
Proof.
  apply (BloomReset_error_leaves_nil_trie sample_trieHash sample_CompressBytes
           sample_DecompressBytes
           (mkBloomTrieIndexerBackend sample_db_dangling BloomTrieTablePrefix 0
              BloomTrieFrequency 1 (Some ∅) [zeroHash]) 1 sample_hash ErrMissingNode).
  vm_compute; reflexivity.
Defined.

Lemma ChtCommit_then_Reset_reopens_witness :
  exists c1,
    ChtIndexerBackend_Commit sample_trieHash sample_cht_leaf = Next tt c1
    /\ ChtIndexerBackend_Reset sample_trieHash c1 (0 + 1) sample_hash
       = Next tt (mkChtIndexerBackend (c_db c1) ChtTablePrefix (0 + 1) ChtV1Frequency
                    sample_hash (Some {[ PutUint64 5 := [1] ]})).
Proof.
  apply (ChtCommit_then_Reset_reopens sample_trieHash sample_cht_leaf
           {[ PutUint64 5 := [1] ]}).
  - reflexivity.
  - reflexivity.
  - by vm_compute.
  - vm_compute; reflexivity.
  - by vm_compute.
  - by vm_compute.
Defined.

Lemma sample_two_tds :
  Forall (fun h => is_Some (GetTd sample_db_two (HeaderHash h) (Uint64 (Number h))))
         [sample_header; sample_header_six].
Proof. repeat constructor; eexists; vm_compute; reflexivity. Qed.

Lemma sample_two_numbers :
  NoDup ((fun h => Uint64 (Number h)) <$> [sample_header; sample_header_six]).
Proof. apply (bool_decide_unpack _). vm_compute; reflexivity. Qed.

Lemma ChtProcessAll_order_irrelevant_witness :
  c_trie (final_state
            (ChtIndexerBackend_ProcessAll sample_EncodeToBytes
               (mkChtIndexerBackend sample_db_two ChtTablePrefix 0 ChtV1Frequency
                  zeroHash (Some ∅)) [sample_header_six; sample_header]))
  = c_trie (final_state
              (ChtIndexerBackend_ProcessAll sample_EncodeToBytes
                 (mkChtIndexerBackend sample_db_two ChtTablePrefix 0 ChtV1Frequency
                    zeroHash (Some ∅)) [sample_header; sample_header_six])).
Proof.
  apply (ChtProcessAll_order_irrelevant sample_EncodeToBytes
           (mkChtIndexerBackend sample_db_two ChtTablePrefix 0 ChtV1Frequency
              zeroHash (Some ∅)) ∅).
  - reflexivity.
  - apply sample_two_tds.
  - apply sample_two_numbers.
  - apply perm_swap.
Defined.

Lemma ChtProcessAll_leaves_witness :
  exists t',
    c_trie (final_state
              (ChtIndexerBackend_ProcessAll sample_EncodeToBytes
                 (mkChtIndexerBackend sample_db_two ChtTablePrefix 0 ChtV1Frequency
                    zeroHash (Some ∅)) [sample_header; sample_header_six]))
    = Some t'
    /\ t' !! PutUint64 6 = Some (192 :: zeroHash ++ [78]).
Proof.
  destruct (ChtProcessAll_leaves sample_EncodeToBytes
              (mkChtIndexerBackend sample_db_two ChtTablePrefix 0 ChtV1Frequency
                 zeroHash (Some ∅)) ∅ [sample_header; sample_header_six])
    as (t' & Ht' & Hleaf & _).
  - reflexivity.
  - apply sample_two_tds.
  - apply sample_two_numbers.
  - exists t'. split; [exact Ht'|].
    apply (Hleaf sample_header_six 78); [set_solver|vm_compute; reflexivity].
Defined.

Lemma ChtCommit_error_writes_nothing_witness :
  final_state
    (ChtIndexerBackend_Commit sample_trieHash
       (mkChtIndexerBackend sample_db_batch_failing ChtTablePrefix 0 ChtV1Frequency
          zeroHash (Some ∅)))
  = mkChtIndexerBackend sample_db_batch_failing ChtTablePrefix 0 ChtV1Frequency
      zeroHash (Some ∅).
Proof.
  apply (ChtCommit_error_writes_nothing sample_trieHash
           (mkChtIndexerBackend sample_db_batch_failing ChtTablePrefix 0 ChtV1Frequency
              zeroHash (Some ∅)) ErrBatchPut).
  vm_compute; reflexivity.
Defined.

Lemma BloomCommit_keeps_other_keys_witness :
  exists t',
    b_trie (final_state
              (BloomTrieIndexerBackend_Commit sample_trieHash sample_CompressBytes
                 sample_DecompressBytes sample_bloom)) = Some t'
    /\ t' !! bloomBitKey 3 7 = None.
Proof.
  destruct (BloomCommit_keeps_other_keys sample_trieHash sample_CompressBytes
              sample_DecompressBytes sample_bloom ∅) as (t' & Ht' & _ & Hother).
  - reflexivity.
  - apply sample_bloom_planes.
  - exists t'. split; [exact Ht'|]. rewrite Hother; [apply lookup_empty|by vm_compute].
Defined.

Lemma sample_bloom_missing_error :
  returned_error
    (BloomTrieIndexerBackend_Commit sample_trieHash sample_CompressBytes
       sample_DecompressBytes sample_bloom_missing) = Some ErrNotFound.
Proof. vm_compute; reflexivity. Qed.

Lemma BloomCommit_error_writes_nothing_witness :
  b_db (final_state
          (BloomTrieIndexerBackend_Commit sample_trieHash sample_CompressBytes
             sample_DecompressBytes sample_bloom_missing))
  = b_db sample_bloom_missing.
Proof.
  apply (BloomCommit_error_writes_nothing sample_trieHash sample_CompressBytes
           sample_DecompressBytes sample_bloom_missing ErrNotFound).
  apply sample_bloom_missing_error.
Defined.

Lemma BloomReachable_keeps_sizes_witness :
  (b_parentSectionSize (ci_backend (NewBloomTrieIndexer sample_db false)) = 32768
   \/ b_parentSectionSize (ci_backend (NewBloomTrieIndexer sample_db false)) = 4096)
  /\ b_parentSectionSize (ci_backend (NewBloomTrieIndexer sample_db false))
     * b_bloomTrieRatio (ci_backend (NewBloomTrieIndexer sample_db false))
     = BloomTrieFrequency
  /\ Z.of_nat (length (b_sectionHeads (ci_backend (NewBloomTrieIndexer sample_db false))))
     = b_bloomTrieRatio (ci_backend (NewBloomTrieIndexer sample_db false)).
Proof.
  apply (BloomReachable_keeps_sizes sample_trieHash sample_CompressBytes
           sample_DecompressBytes).
  apply reach_new.
Defined.

Lemma BloomProcess_records_section_end_witness :
  exists b',
    BloomTrieIndexerBackend_Process (ci_backend (NewBloomTrieIndexer sample_db false))
      (mkHeader 8191 sample_hash) = Next tt b'
    /\ b_sectionHeads b' !! 1%nat = Some sample_hash.
Proof.
  destruct (BloomProcess_records_section_end sample_trieHash sample_CompressBytes
              sample_DecompressBytes (ci_backend (NewBloomTrieIndexer sample_db false))
              (mkHeader 8191 sample_hash)) as (b' & Hrun & Hend & _).
  - apply reach_new.
  - by vm_compute.
  - split; by vm_compute.
  - exists b'. split; [exact Hrun|]. apply Hend. vm_compute; reflexivity.
Defined.

Lemma BloomProcessAll_slot_holds_section_end_witness :
  exists b',
    BloomTrieIndexerBackend_ProcessAll (ci_backend (NewBloomTrieIndexer sample_db false))
      ([mkHeader 4094 zeroHash] ++ mkHeader 4095 sample_hash :: [mkHeader 4096 zeroHash])
    = Next tt b'
    /\ b_sectionHeads b' !! 0%nat = Some sample_hash.
Proof.
  apply (BloomProcessAll_slot_holds_section_end sample_trieHash sample_CompressBytes
           sample_DecompressBytes (ci_backend (NewBloomTrieIndexer sample_db false))
           [mkHeader 4094 zeroHash] [mkHeader 4096 zeroHash]
           (mkHeader 4095 sample_hash)).
  - apply reach_new.
  - by vm_compute.
  - repeat constructor; by vm_compute.
  - vm_compute; reflexivity.
  - repeat constructor. by vm_compute.
Defined.

Lemma BloomCommit_twice_same_witness :
  exists b1,
    BloomTrieIndexerBackend_Commit sample_trieHash sample_CompressBytes
      sample_DecompressBytes sample_bloom = Next tt b1
    /\ BloomTrieIndexerBackend_Commit sample_trieHash sample_CompressBytes
         sample_DecompressBytes b1 = Next tt b1.
Proof.
  apply (BloomCommit_twice_same sample_trieHash sample_CompressBytes
           sample_DecompressBytes sample_bloom ∅).
  - reflexivity.
  - apply sample_bloom_planes.
  - split; by vm_compute.
  - reflexivity.
Defined.

Lemma sample_bloom_root :
  length (sample_trieHash
            (committed_planes sample_CompressBytes sample_DecompressBytes
               sample_bloom ∅)) = HashLength
  /\ sample_trieHash
       (committed_planes sample_CompressBytes sample_DecompressBytes sample_bloom ∅)
     <> zeroHash
  /\ sample_trieHash
       (committed_planes sample_CompressBytes sample_DecompressBytes sample_bloom ∅)
     <> emptyRoot sample_trieHash.
Proof. repeat split; by vm_compute. Qed.

Lemma BloomCommit_then_Reset_reopens_witness :
  exists b1,
    BloomTrieIndexerBackend_Commit sample_trieHash sample_CompressBytes
      sample_DecompressBytes sample_bloom = Next tt b1
    /\ BloomTrieIndexerBackend_Reset sample_trieHash b1 (0 + 1) sample_hash
       = Next tt (mkBloomTrieIndexerBackend (b_db b1) BloomTrieTablePrefix (0 + 1)
                    BloomTrieFrequency 1
                    (Some (committed_planes sample_CompressBytes sample_DecompressBytes
                             sample_bloom ∅)) [sample_hash]).
Proof.
  destruct sample_bloom_root as (Hlen & Hz & He).
  apply (BloomCommit_then_Reset_reopens sample_trieHash sample_CompressBytes
           sample_DecompressBytes sample_bloom ∅ sample_hash).
  - reflexivity.
  - apply sample_bloom_planes.
  - split; by vm_compute.
  - reflexivity.
  - by vm_compute.
  - reflexivity.
  - exact Hlen.
  - exact Hz.
  - exact He.
Defined.
